(** * locallibs/install.py: pip-installing extra modules into a relocatable
      Python framework

    A shallow embedding of [locallibs/install.py].  The module builds paths
    inside a framework ([os.path.join], [os.path.abspath]), assembles pip
    argument vectors, and hands them to [subprocess.check_call].  Paths and
    argument vectors are embedded as strings and lists of strings; printing,
    the process-wide [os.environ] mapping and the launched children are
    embedded in a small state/exception/output monad over an abstract host. *)

From stdpp Require Import gmap strings list.
From Stdlib Require Import ZArith Ascii.

(** ** posixpath: the library functions the module calls *)

Module posixpath.

(** [s.startswith("/")], which is also [posixpath.isabs]. *)
Definition isabs (s : string) : bool :=
  match s with
  | String c _ => Ascii.eqb c "/"%char
  | "" => false
  end.

(** [s.endswith("/")]. *)
Fixpoint endswith_sep (s : string) : bool :=
  match s with
  | "" => false
  | String c "" => Ascii.eqb c "/"%char
  | String _ s' => endswith_sep s'
  end.

(** One round of the loop of [posixpath.join]: a component that starts
    with a separator replaces everything before it, an empty or
    separator-terminated prefix is extended as it is, and otherwise one
    separator is inserted. *)
Definition join_step (path b : string) : string :=
  if isabs b then b
  else if (String.eqb path "" || endswith_sep path)%bool then path +:+ b
  else path +:+ "/" +:+ b.

(** [os.path.join(a, *p)]. *)
Definition join (a : string) (p : list string) : string :=
  fold_left join_step p a.

(** [path.split("/")]: always at least one component. *)
Fixpoint split_sep (s : string) : list string :=
  match s with
  | "" => [""]
  | String c s' =>
      if Ascii.eqb c "/"%char then "" :: split_sep s'
      else match split_sep s' with
           | [] => [String c ""]
           | h :: t => String c h :: t
           end
  end.

(** The number of leading separators [normpath] keeps: POSIX allows one or
    two, three or more count as one. *)
Definition initial_slashes (path : string) : nat :=
  if isabs path then
    if (String.prefix "//" path && negb (String.prefix "///" path))%bool
    then 2 else 1
  else 0.

(** One round of the component loop of [normpath].  [new_comps] is kept
    with its last element first, so [new_comps[-1]] is the head,
    [append] is a cons and [pop] drops the head. *)
Definition norm_step (slashes : nat) (new_comps : list string)
    (comp : string) : list string :=
  if (String.eqb comp "" || String.eqb comp ".")%bool then new_comps
  else if (negb (String.eqb comp "..")
           || (Nat.eqb slashes 0 && bool_decide (new_comps = []))
           || match new_comps with
              | last :: _ => String.eqb last ".."
              | [] => false
              end)%bool
       then comp :: new_comps
       else tail new_comps.

(** [sep * n]. *)
Fixpoint seps (n : nat) : string :=
  match n with
  | O => ""
  | S n' => "/" +:+ seps n'
  end.

(** [os.path.normpath(path)]. *)
Definition normpath (path : string) : string :=
  if String.eqb path "" then "."
  else
    let slashes := initial_slashes path in
    let comps := rev (fold_left (norm_step slashes) (split_sep path) []) in
    let path' := seps slashes +:+ String.concat "/" comps in
    if String.eqb path' "" then "." else path'.

(** [os.path.abspath(path)], with the working directory made explicit. *)
Definition abspath (cwd path : string) : string :=
  normpath (if isabs path then path else join cwd [path]).

End posixpath.

(** ** Events, exceptions and the host *)

Inductive stream : Type := Stdout | Stderr.

#[global] Instance stream_eq_dec : EqDecision stream.
Proof. solve_decision. Defined.

(** What the module does to the outside: a [print] call, and a call of
    [subprocess.check_call], with the argument vector and the environment
    it was handed and the status the child exited with, or [None] when the
    child could not be started at all. *)
Inductive event : Type :=
  | EvPrint (out : stream) (text : string)
  | EvSpawn (cmd : list string) (env : gmap string string)
      (status : option Z).

Inductive exn : Type :=
  | CalledProcessError (returncode : Z) (cmd : list string)
  | OSError
  | TypeError
  | ValueError.

Inductive result (A : Type) : Type :=
  | Ok (a : A)
  | Raise (e : exn).
Arguments Ok {A} a.
Arguments Raise {A} e.

(** The operating system and the parts of the Python runtime the module
    relies on without implementing them.  [run_child] tries to start a
    child process and waits for it: it gives the exit status of the child,
    or [None] when the child could not be started (the path is a directory,
    is not executable, is not a program), and the state the system is left
    in; [getcwd] is an absolute path, as POSIX has it for a process whose
    working directory still exists; [str_mod] is the [%] operator on a
    format string and a [str] operand, which raises on a malformed
    format. *)
Class Host (OS : Type) : Type := {
  path_exists : OS → string → bool;
  getcwd : OS → string;
  getcwd_isabs : ∀ o, posixpath.isabs (getcwd o) = true;
  expanduser : OS → gmap string string → string → string;
  str_mod : string → string → result string;
  run_child : OS → list string → gmap string string → option Z * OS
}.

(** The state of the running process: the system around it and the
    process-wide [os.environ] mapping. *)
Record State (OS : Type) : Type := mkState {
  host : OS;
  environ : gmap string string
}.
Arguments mkState {OS} host environ.
Arguments host {OS} s.
Arguments environ {OS} s.

(** One run of a computation: how it ended, the state it left, and the
    events it produced, oldest first. *)
Record Run (OS A : Type) : Type := mkRun {
  outcome : result A;
  final : State OS;
  emitted : list event
}.
Arguments mkRun {OS A} outcome final emitted.
Arguments outcome {OS A} r.
Arguments final {OS A} r.
Arguments emitted {OS A} r.

Definition M (OS A : Type) : Type := State OS → Run OS A.

Definition M_ret {OS A} (a : A) : M OS A :=
  λ s, mkRun (Ok a) s [].

(** Sequencing: an exception in the first part skips the second; the
    state and the events of the first part are kept either way. *)
Definition M_bind {OS A B} (f : A → M OS B) (m : M OS A) : M OS B :=
  λ s,
    let r := m s in
    match outcome r with
    | Ok a =>
        let r' := f a (final r) in
        mkRun (outcome r') (final r') (emitted r ++ emitted r')
    | Raise e => mkRun (Raise e) (final r) (emitted r)
    end.

#[global] Instance M_MRet {OS} : MRet (M OS) := @M_ret OS.
#[global] Instance M_MBind {OS} : MBind (M OS) := @M_bind OS.

(** The argument vectors a run handed to [check_call], in order. *)
Definition launched {OS A} (r : Run OS A) : list (list string) :=
  omap (λ e, match e with EvSpawn cmd _ _ => Some cmd | _ => None end)
       (emitted r).

(** The lines a run printed on a stream, in order. *)
Definition printed {OS A} (out : stream) (r : Run OS A) : list string :=
  omap (λ e, match e with
             | EvPrint o text =>
                 if bool_decide (o = out) then Some text else None
             | _ => None
             end)
       (emitted r).

Definition raised {OS A} (r : Run OS A) : Prop :=
  ∃ e, outcome r = Raise e.

(** Python truthiness of an optional list and of an optional string. *)
Definition truthy_list {A} (l : option (list A)) : bool :=
  match l with
  | Some (_ :: _) => true
  | _ => false
  end.

Definition truthy_str (s : option string) : bool :=
  match s with
  | Some s => negb (String.eqb s "")
  | None => false
  end.

(** The elements a [for] loop over an optional list visits (reached only
    for truthy lists). *)
Definition values_of {A} (l : option (list A)) : list A := default [] l.

(** ** The module *)

Section Installer.
Context {OS : Type} `{!Host OS}.

(** *** What the module calls *)

(** [print(text)] and [print(text, file=sys.stderr)]. *)
Definition print (out : stream) (text : string) : M OS unit :=
  λ s, mkRun (Ok ()) s [EvPrint out text].

(** [os.path.exists(path)]. *)
Definition os_path_exists (path : string) : M OS bool :=
  λ s, mkRun (Ok (path_exists (host s) path)) s [].

(** [os.path.abspath(path)]. *)
Definition os_path_abspath (path : string) : M OS string :=
  λ s, mkRun (Ok (posixpath.abspath (getcwd (host s)) path)) s [].

(** [os.path.expanduser(path)]. *)
Definition os_path_expanduser (path : string) : M OS string :=
  λ s, mkRun (Ok (expanduser (host s) (environ s) path)) s [].

(** [fmt % arg]. *)
Definition percent (fmt arg : string) : M OS string :=
  λ s, mkRun (str_mod fmt arg) s [].

(** Reading through a reference to the [os.environ] object. *)
Definition os_environ : M OS (gmap string string) :=
  λ s, mkRun (Ok (environ s)) s [].

(** [os.environ[key] = value]: the process-wide mapping is updated in
    place. *)
Definition environ_setitem (key value : string) : M OS unit :=
  λ s, mkRun (Ok ()) (mkState (host s) (<[key := value]> (environ s))) [].

(** [subprocess.check_call(cmd, env=env)]: the child runs to completion;
    without [env] it inherits the environment of the process; a status
    other than zero raises [CalledProcessError], and a child that cannot be
    started raises [OSError].  The environment of the parent is not the
    child's to change. *)
Definition check_call (cmd : list string)
    (env : option (gmap string string)) : M OS unit :=
  λ s,
    let child_env := default (environ s) env in
    let '(status, o) := run_child (host s) cmd child_env in
    mkRun (match status with
           | Some returncode =>
               if Z.eqb returncode 0 then Ok ()
               else Raise (CalledProcessError returncode cmd)
           | None => Raise OSError
           end)
          (mkState o (environ s))
          [EvSpawn cmd child_env status].

(** *** install.py *)

Definition ensure_pip (framework_path version : string) : M OS unit :=
  let python_path :=
    posixpath.join framework_path
      ["Versions"; version; "bin/python" +:+ version] in
  found ← os_path_exists python_path;
  if negb found then
    print Stderr ("No python at " +:+ python_path)
  else
    let cmd := [python_path; "-s"; "-m"; "ensurepip"] in
    print Stdout "Ensuring pip is installed...";;
    check_call cmd None.

Definition install (pkgname framework_path version : string) : M OS unit :=
  let python_path :=
    posixpath.join framework_path
      ["Versions"; version; "bin/python" +:+ version] in
  found ← os_path_exists python_path;
  if negb found then
    print Stderr ("No python at " +:+ python_path)
  else
    let cmd := [python_path; "-s"; "-m"; "pip"; "install"; pkgname] in
    print Stdout ("Installing " +:+ pkgname +:+ "...");;
    check_call cmd None.

Definition upgrade_pip_install (framework_path version : string)
    : M OS unit :=
  let python_path :=
    posixpath.join framework_path
      ["Versions"; version; "bin/python" +:+ version] in
  found ← os_path_exists python_path;
  if negb found then
    print Stderr ("No python at " +:+ python_path)
  else
    let cmd :=
      [python_path; "-s"; "-m"; "pip"; "install"; "--upgrade"; "pip"] in
    print Stdout "Upgrading pip installation...";;
    check_call cmd None.

(** The helper nested in [install_requirements];
    [itertools.chain.from_iterable] is [concat]. *)
Definition multi_value_option (option : string) (values : list string)
    (separator : Datatypes.option string) : list string :=
  if truthy_str separator then
    concat (map (λ value, [(option +:+ default "" separator) +:+ value])
                values)
  else
    concat (map (λ value, [option; value]) values).

Definition install_requirements
    (requirements_file framework_path version : string)
    (pip_platform no_binary only_binary : option (list string))
    : M OS unit :=
  let python_path :=
    posixpath.join framework_path
      ["Versions"; version; "bin/python" +:+ version] in
  headers_path ←
    os_path_abspath
      (posixpath.join framework_path
         ["Versions"; version; "include/python" +:+ version]);
  let site_packages_path :=
    posixpath.join framework_path
      ["Versions"; version;
       ("lib/python" +:+ version) +:+ "/site-packages"] in
  found ← os_path_exists python_path;
  if negb found then
    print Stderr ("No python at " +:+ python_path)
  else
    let cmd :=
      [python_path; "-s"; "-m"; "pip"; "install"; "-r";
       requirements_file] in
    let cmd :=
      if truthy_list pip_platform then
        (cmd ++ multi_value_option "--platform" (values_of pip_platform)
                  None)
        ++ ["--target=" +:+ site_packages_path]
      else cmd in
    let cmd :=
      if truthy_list no_binary then
        cmd ++ multi_value_option "--no-binary" (values_of no_binary)
                 (Some "=")
      else if truthy_list only_binary then
        cmd ++ multi_value_option "--only-binary" (values_of only_binary)
                 (Some "=")
      else cmd in
    (* pip_env = os.environ binds a second name to the same mapping *)
    environ_setitem "CPPFLAGS" ("-I" +:+ headers_path);;
    print Stdout ("Installing modules from " +:+ requirements_file
                  +:+ "...");;
    pip_env ← os_environ;
    check_call cmd (Some pip_env).

Definition skip_message : string :=
  "Skipping all requirements, packages, etc due to without-pip specified".

(** The warning printed when user site-packages of the same version
    exist. *)
Definition guard_banner (python_guard_path : string) : M OS unit :=
  print Stdout "*********************************************************";;
  print Stdout "*** Python user files exist that conflict with the    ***";;
  print Stdout "*** version of relocatable python you are trying to   ***";;
  print Stdout "*** create. This can result in extra python modules   ***";;
  print Stdout "*** not being installed properly or out of date.      ***";;
  print Stdout "*** Please remove these files or create this package  ***";;
  print Stdout "*** under a fresh user account.                       ***";;
  print Stdout "*** The files are located at:                         ***";;
  print Stdout (("*** " +:+ python_guard_path) +:+ " ***");;
  print Stdout "*********************************************************";;
  print Stdout "".

(** Lines 129 to 144 of [install_extras]: the blank line, the guard path
    and the warning. *)
Definition guard_check (version : string) : M OS unit :=
  print Stdout "";;
  template ←
    os_path_expanduser "~/Library/Python/%s/lib/python/site-packages";
  python_guard_path ← percent template version;
  conflict ← os_path_exists python_guard_path;
  if (conflict : bool) then guard_banner python_guard_path else mret ().

(** [install_extras]; the defaults of the source are [version="2.7"],
    [requirements_file=None], [upgrade_pip=False], [without_pip=False]
    and [None] for the three lists. *)
Definition install_extras (framework_path version : string)
    (requirements_file : option string) (upgrade_pip without_pip : bool)
    (pip_platform no_binary only_binary : option (list string))
    : M OS unit :=
  guard_check version;;
  if negb without_pip then
    ensure_pip framework_path version;;
    install "wheel" framework_path version;;
    (if upgrade_pip then upgrade_pip_install framework_path version
     else mret ());;
    (if truthy_str requirements_file then
       print Stdout "";;
       install_requirements (default "" requirements_file) framework_path
         version pip_platform no_binary only_binary
     else mret ())
  else
    print Stdout skip_message.

(** *** The four subprocess-issuing operations, as data *)

Inductive operation : Type :=
  | EnsurePip (framework_path version : string)
  | Install (pkgname framework_path version : string)
  | UpgradePipInstall (framework_path version : string)
  | InstallRequirements (requirements_file framework_path version : string)
      (pip_platform no_binary only_binary : option (list string)).

Definition perform (op : operation) : M OS unit :=
  match op with
  | EnsurePip fp v => ensure_pip fp v
  | Install pkg fp v => install pkg fp v
  | UpgradePipInstall fp v => upgrade_pip_install fp v
  | InstallRequirements rf fp v plat nb ob =>
      install_requirements rf fp v plat nb ob
  end.

Definition root_of (op : operation) : string :=
  match op with
  | EnsurePip fp _ | Install _ fp _ | UpgradePipInstall fp _
  | InstallRequirements _ fp _ _ _ _ => fp
  end.

Definition version_of (op : operation) : string :=
  match op with
  | EnsurePip _ v | Install _ _ v | UpgradePipInstall _ v
  | InstallRequirements _ _ v _ _ _ => v
  end.

End Installer.

(** ** Names for what the statements below talk about *)

(** The executable path, as each of the four operations computes it. *)
Definition python_path_of (framework_path version : string) : string :=
  posixpath.join framework_path
    ["Versions"; version; "bin/python" +:+ version].

(** The header directory before [abspath], and the install directory, as
    [install_requirements] computes them. *)
Definition headers_dir_of (framework_path version : string) : string :=
  posixpath.join framework_path
    ["Versions"; version; "include/python" +:+ version].

Definition site_packages_path_of (framework_path version : string)
    : string :=
  posixpath.join framework_path
    ["Versions"; version; ("lib/python" +:+ version) +:+ "/site-packages"].

(** The path template in the words of the specification:
    [<root>/Versions/<version>/<leaf>]. *)
Definition template_path (root version leaf : string) : string :=
  root +:+ "/Versions/" +:+ version +:+ "/" +:+ leaf.

(** The seven leading arguments of a manifest install. *)
Definition requirements_base (requirements_file framework_path
    version : string) : list string :=
  [python_path_of framework_path version; "-s"; "-m"; "pip"; "install";
   "-r"; requirements_file].

(** [--platform p1 ... --platform pn --target=<install-dir>]. *)
Definition platform_flags (framework_path version : string)
    (platforms : list string) : list string :=
  flat_map (λ p, ["--platform"; p]) platforms
  ++ ["--target=" +:+ site_packages_path_of framework_path version].

(** The exit statuses of the children a run started, in order. *)
Definition exit_statuses {OS A} (r : Run OS A) : list Z :=
  omap (λ e, match e with EvSpawn _ _ status => status | _ => None end)
       (emitted r).

(** The environments a run handed to [check_call], in order. *)
Definition child_envs {OS A} (r : Run OS A) : list (gmap string string) :=
  omap (λ e, match e with EvSpawn _ env _ => Some env | _ => None end)
       (emitted r).

(** The argument vector [install_requirements] has built when it reaches
    [check_call] (lines 100 to 110), on the executable path [python_path]
    and the install directory [site_packages_path]. *)
Definition requirements_cmd (python_path site_packages_path
    requirements_file : string)
    (pip_platform no_binary only_binary : option (list string))
    : list string :=
  let cmd :=
    [python_path; "-s"; "-m"; "pip"; "install"; "-r"; requirements_file] in
  let cmd :=
    if truthy_list pip_platform then
      (cmd ++ multi_value_option "--platform" (values_of pip_platform) None)
      ++ ["--target=" +:+ site_packages_path]
    else cmd in
  if truthy_list no_binary then
    cmd ++ multi_value_option "--no-binary" (values_of no_binary) (Some "=")
  else if truthy_list only_binary then
    cmd ++ multi_value_option "--only-binary" (values_of only_binary)
             (Some "=")
  else cmd.

(** The flags the two binary lists contribute. *)
Definition binary_flags (no_binary only_binary : option (list string))
    : list string :=
  if truthy_list no_binary then
    map (λ name, "--no-binary=" +:+ name) (values_of no_binary)
  else if truthy_list only_binary then
    map (λ name, "--only-binary=" +:+ name) (values_of only_binary)
  else [].

(** The flags the platform list contributes. *)
Definition platform_part (framework_path version : string)
    (pip_platform : option (list string)) : list string :=
  if truthy_list pip_platform then
    platform_flags framework_path version (values_of pip_platform)
  else [].

(** A root and a version for which joining and pasting with separators
    agree: neither is empty or ends with a separator, and the version does
    not start with one. *)
Definition plain_location (root version : string) : Prop :=
  root ≠ "" ∧ posixpath.endswith_sep root = false
  ∧ version ≠ "" ∧ posixpath.endswith_sep version = false
  ∧ posixpath.isabs version = false.

(** How often a line occurs among printed lines. *)
Definition occurrences (line : string) (lines : list string) : nat :=
  length (filter (λ l, l = line) lines).

(** ** The two ways an operation can go *)

Section Outcomes.
Context {OS : Type} `{!Host OS}.

(** What a launch leaves behind: one line, one call of [check_call], and
    what became of the child decides between returning and raising. *)
Definition launch_run (text : string) (cmd : list string)
    (env : gmap string string) (s : State OS) : Run OS unit :=
  let status := (run_child (host s) cmd env).1 in
  mkRun (match status with
         | Some returncode =>
             if Z.eqb returncode 0 then Ok ()
             else Raise (CalledProcessError returncode cmd)
         | None => Raise OSError
         end)
        (mkState (run_child (host s) cmd env).2 env)
        [EvPrint Stdout text; EvSpawn cmd env status].

(** What an operation leaves behind when there is no executable: one
    line on the error stream, nothing else. *)
Definition absent_run (path : string) (s : State OS) : Run OS unit :=
  mkRun (Ok ()) s [EvPrint Stderr ("No python at " +:+ path)].

(** The header directory handed to the compiler: [headers_path]. *)
Definition headers_path_at (s : State OS) (fp v : string) : string :=
  posixpath.abspath (getcwd (host s)) (headers_dir_of fp v).

End Outcomes.

(** ** A concrete host, to run the module on *)

Module Sim.

(** A system with a fixed set of existing paths, one home directory, and
    children that all exit with the same status and change nothing. *)
Record os : Type := mk_os {
  files : list string;
  home : string;
  child_status : Z
}.

(** [%] restricted to the directives [%s] and [%%]; [used] tells whether
    the single operand has been consumed. *)
Fixpoint format (fmt arg : string) (used : bool) : result string :=
  match fmt with
  | "" => if used then Ok "" else Raise TypeError
  | String c rest =>
      if Ascii.eqb c "%"%char then
        match rest with
        | String d rest' =>
            if Ascii.eqb d "s"%char then
              if used then Raise TypeError
              else match format rest' arg true with
                   | Ok t => Ok (arg +:+ t)
                   | Raise e => Raise e
                   end
            else if Ascii.eqb d "%"%char then
              match format rest' arg used with
              | Ok t => Ok (String "%"%char t)
              | Raise e => Raise e
              end
            else Raise ValueError
        | "" => Raise ValueError
        end
      else
        match format rest arg used with
        | Ok t => Ok (String c t)
        | Raise e => Raise e
        end
  end.

Definition expand (o : os) (env : gmap string string) (path : string)
    : string :=
  match path with
  | String c rest =>
      if Ascii.eqb c "~"%char then default (home o) (env !! "HOME") +:+ rest
      else path
  | "" => path
  end.

#[global] Instance sim_host : Host os := {|
  path_exists o p := existsb (String.eqb p) (files o);
  getcwd _ := "/build";
  getcwd_isabs _ := eq_refl;
  expanduser := expand;
  str_mod fmt arg := format fmt arg false;
  run_child o _ _ := (Some (child_status o), o)
|}.

(** A framework with a Python 3.9 in it, children that succeed. *)
Definition good : State os :=
  mkState (mk_os ["/R/Versions/3.9/bin/python3.9"] "/Users/dev" 0) ∅.

(** The same framework, children that exit with status 1. *)
Definition failing : State os :=
  mkState (mk_os ["/R/Versions/3.9/bin/python3.9"] "/Users/dev" 1) ∅.

(** No framework at all. *)
Definition bare : State os :=
  mkState (mk_os [] "/Users/dev" 0) ∅.

(** The same kind of system with every file present but none of them
    executable: no child can be started. *)
Record locked : Type := mk_locked { unlocked : os }.

#[global] Instance locked_host : Host locked := {|
  path_exists o p := existsb (String.eqb p) (files (unlocked o));
  getcwd _ := "/build";
  getcwd_isabs _ := eq_refl;
  expanduser o := expand (unlocked o);
  str_mod fmt arg := format fmt arg false;
  run_child o _ _ := (None, o)
|}.

(** A framework whose interpreter is there and cannot be run. *)
Definition not_executable : State locked :=
  mkState (mk_locked (mk_os ["/R/Versions/3.9/bin/python3.9"] "/Users/dev" 0))
    ∅.

(** A home directory with a percent sign in its name. *)
Definition percent_home : State os :=
  mkState (mk_os ["/R/Versions/3.9/bin/python3.9"] "/Users/50%" 0) ∅.

End Sim.

(** ** The plan of a whole installation *)

(** The argument vector an operation hands to [check_call]. *)
Definition argv (op : operation) : list string :=
  match op with
  | EnsurePip fp v => [python_path_of fp v; "-s"; "-m"; "ensurepip"]
  | Install pkgname fp v =>
      [python_path_of fp v; "-s"; "-m"; "pip"; "install"; pkgname]
  | UpgradePipInstall fp v =>
      [python_path_of fp v; "-s"; "-m"; "pip"; "install"; "--upgrade"; "pip"]
  | InstallRequirements rf fp v plat nb ob =>
      requirements_cmd (python_path_of fp v) (site_packages_path_of fp v) rf
        plat nb ob
  end.

(** The operations [install_extras] goes through when [without_pip] is off,
    in order; the flag tells whether a blank line is printed first. *)
Definition steps (framework_path version : string)
    (requirements_file : option string) (upgrade_pip : bool)
    (pip_platform no_binary only_binary : option (list string))
    : list (bool * operation) :=
  [(false, EnsurePip framework_path version);
   (false, Install "wheel" framework_path version)]
  ++ (if upgrade_pip then [(false, UpgradePipInstall framework_path version)]
      else [])
  ++ (if truthy_str requirements_file then
        [(true, InstallRequirements (default "" requirements_file)
                  framework_path version pip_platform no_binary only_binary)]
      else []).

(** The children a whole installation launches when nothing goes wrong:
    bootstrap, wheel, the upgrade if asked for, the manifest install if a
    manifest is given; none at all with [without_pip]. *)
Definition plan (framework_path version : string)
    (requirements_file : option string) (upgrade_pip without_pip : bool)
    (pip_platform no_binary only_binary : option (list string))
    : list (list string) :=
  if without_pip then []
  else
    [[python_path_of framework_path version; "-s"; "-m"; "ensurepip"];
     [python_path_of framework_path version; "-s"; "-m"; "pip"; "install";
      "wheel"]]
    ++ (if upgrade_pip then
          [[python_path_of framework_path version; "-s"; "-m"; "pip";
            "install"; "--upgrade"; "pip"]]
        else [])
    ++ (if truthy_str requirements_file then
          [requirements_base (default "" requirements_file) framework_path
             version
           ++ platform_part framework_path version pip_platform
           ++ binary_flags no_binary only_binary]
        else []).

(** The line an operation prints when its executable is missing. *)
Definition missing_message (framework_path version : string) : string :=
  "No python at " +:+ python_path_of framework_path version.

(** Two environments that differ at most in [CPPFLAGS]. *)
Definition agree_off_cppflags (e1 e2 : gmap string string) : Prop :=
  ∀ key : string, key ≠ "CPPFLAGS" → e1 !! key = e2 !! key.

Section Sequences.
Context {OS : Type} `{!Host OS}.

(** The line an operation prints on standard output before it launches
    its child. *)
Definition announcement (op : operation) : string :=
  match op with
  | EnsurePip _ _ => "Ensuring pip is installed..."
  | Install pkgname _ _ => "Installing " +:+ pkgname +:+ "..."
  | UpgradePipInstall _ _ => "Upgrading pip installation..."
  | InstallRequirements rf _ _ _ _ _ =>
      "Installing modules from " +:+ rf +:+ "..."
  end.

(** The environment the child of an operation is given in state [s]. *)
Definition child_env_of (op : operation) (s : State OS)
    : gmap string string :=
  match op with
  | InstallRequirements _ fp v _ _ _ =>
      <["CPPFLAGS" := "-I" +:+ headers_path_at s fp v]> (environ s)
  | _ => environ s
  end.

(** Operations run one after the other, each after its blank line if it
    has one. *)
Fixpoint run_steps (l : list (bool * operation)) : M OS unit :=
  match l with
  | [] => mret ()
  | (blank, op) :: l' =>
      (if (blank : bool) then print Stdout "" else mret ());;
      perform op;;
      run_steps l'
  end.


(** A run that left the environment of the process, and gave every child
    an environment, equal to that of [s] except perhaps at [CPPFLAGS]. *)
Definition env_framed {A} (s : State OS) (r : Run OS A) : Prop :=
  agree_off_cppflags (environ (final r)) (environ s)
  ∧ Forall (λ env, agree_off_cppflags env (environ s)) (child_envs r).

(** A run that left the environment of the process as it was in [s] and
    gave every child exactly that environment. *)
Definition env_untouched {A} (s : State OS) (r : Run OS A) : Prop :=
  environ (final r) = environ s
  ∧ Forall (λ env, env = environ s) (child_envs r).

End Sequences.

(** ** Properties *)

(** *** Running the model on concrete inputs *)

Example join_plain :
  posixpath.join "/R" ["Versions"; "3.9"; "bin/python" +:+ "3.9"]
  = "/R/Versions/3.9/bin/python3.9".
Proof. reflexivity. Qed.

Example join_restart :
  posixpath.join "/R" ["Versions"; "/x"; "bin/python" +:+ "/x"]
  = "/x/bin/python/x".
Proof. reflexivity. Qed.

Example abspath_relative :
  posixpath.abspath "/home/dev" "fw/../Python.framework/./Versions//3.9"
  = "/home/dev/Python.framework/Versions/3.9".
Proof. reflexivity. Qed.

Example normpath_dotdot_root : posixpath.normpath "//../a/" = "//a".
Proof. reflexivity. Qed.

Example install_requirements_good :
  launched (install_requirements "reqs.txt" "/R" "3.9"
              (Some ["macosx_10_9_x86_64"]) (Some ["numpy"]) (Some ["six"])
              Sim.good)
  = [["/R/Versions/3.9/bin/python3.9"; "-s"; "-m"; "pip"; "install"; "-r";
      "reqs.txt"; "--platform"; "macosx_10_9_x86_64";
      "--target=/R/Versions/3.9/lib/python3.9/site-packages";
      "--no-binary=numpy"]].
Proof. reflexivity. Qed.

Example install_extras_good :
  emitted (install_extras "/R" "3.9" None false false None None None Sim.good)
  = [EvPrint Stdout "";
     EvPrint Stdout "Ensuring pip is installed...";
     EvSpawn ["/R/Versions/3.9/bin/python3.9"; "-s"; "-m"; "ensurepip"] ∅
       (Some 0%Z);
     EvPrint Stdout "Installing wheel...";
     EvSpawn ["/R/Versions/3.9/bin/python3.9"; "-s"; "-m"; "pip"; "install";
              "wheel"] ∅ (Some 0%Z)].
Proof. reflexivity. Qed.

(** The guard path is formatted after the home directory has been
    expanded into it, so a percent sign in the home directory is read as a
    directive. *)
Example install_extras_percent_home :
  install_extras "/R" "3.9" None false true None None None Sim.percent_home
  = mkRun (Raise ValueError) Sim.percent_home [EvPrint Stdout ""].
Proof. reflexivity. Qed.

Example install_extras_skip :
  emitted (install_extras "/R" "3.9" None false true None None None Sim.good)
  = [EvPrint Stdout ""; EvPrint Stdout skip_message].
Proof. reflexivity. Qed.

(** *** How the operations run *)

Section Running.
Context {OS : Type} `{!Host OS}.

Lemma run_eta {A} (r : Run OS A) :
  mkRun (outcome r) (final r) (emitted r) = r.
Proof. destruct r; reflexivity. Qed.

(** The existence check every operation starts with. *)
Lemma exists_branch (path : string) (absent present : M OS unit)
    (s : State OS) :
  (found ← os_path_exists path; if negb found then absent else present) s
  = if path_exists (host s) path then present s else absent s.
Proof.
  unfold mbind, M_MBind, M_bind, os_path_exists.
  cbn [outcome final emitted app].
  destruct (path_exists (host s) path); cbn [negb]; apply run_eta.
Qed.

Lemma announce_then_call (text : string) (cmd : list string)
    (s : State OS) :
  (print Stdout text;; check_call cmd None) s
  = launch_run text cmd (environ s) s.
Proof.
  unfold mbind, M_MBind, M_bind, print, check_call, launch_run.
  cbn [outcome final emitted app host environ default].
  destruct (run_child (host s) cmd (environ s)) as [st o].
  reflexivity.
Qed.

Lemma ensure_pip_run (fp v : string) (s : State OS) :
  ensure_pip fp v s
  = if path_exists (host s) (python_path_of fp v) then
      launch_run "Ensuring pip is installed..."
        [python_path_of fp v; "-s"; "-m"; "ensurepip"] (environ s) s
    else absent_run (python_path_of fp v) s.
Proof.
  change (ensure_pip fp v s) with
    ((found ← os_path_exists (python_path_of fp v);
      if negb found
      then print Stderr ("No python at " +:+ python_path_of fp v)
      else (print Stdout "Ensuring pip is installed...";;
            check_call [python_path_of fp v; "-s"; "-m"; "ensurepip"]
              None)) s).
  rewrite exists_branch, announce_then_call. reflexivity.
Qed.

Lemma install_run (pkgname fp v : string) (s : State OS) :
  install pkgname fp v s
  = if path_exists (host s) (python_path_of fp v) then
      launch_run ("Installing " +:+ pkgname +:+ "...")
        [python_path_of fp v; "-s"; "-m"; "pip"; "install"; pkgname]
        (environ s) s
    else absent_run (python_path_of fp v) s.
Proof.
  change (install pkgname fp v s) with
    ((found ← os_path_exists (python_path_of fp v);
      if negb found
      then print Stderr ("No python at " +:+ python_path_of fp v)
      else (print Stdout ("Installing " +:+ pkgname +:+ "...");;
            check_call
              [python_path_of fp v; "-s"; "-m"; "pip"; "install"; pkgname]
              None)) s).
  rewrite exists_branch, announce_then_call. reflexivity.
Qed.

Lemma upgrade_pip_install_run (fp v : string) (s : State OS) :
  upgrade_pip_install fp v s
  = if path_exists (host s) (python_path_of fp v) then
      launch_run "Upgrading pip installation..."
        [python_path_of fp v; "-s"; "-m"; "pip"; "install"; "--upgrade";
         "pip"] (environ s) s
    else absent_run (python_path_of fp v) s.
Proof.
  change (upgrade_pip_install fp v s) with
    ((found ← os_path_exists (python_path_of fp v);
      if negb found
      then print Stderr ("No python at " +:+ python_path_of fp v)
      else (print Stdout "Upgrading pip installation...";;
            check_call
              [python_path_of fp v; "-s"; "-m"; "pip"; "install";
               "--upgrade"; "pip"] None)) s).
  rewrite exists_branch, announce_then_call. reflexivity.
Qed.

Lemma install_requirements_run (rf fp v : string)
    (plat nb ob : option (list string)) (s : State OS) :
  install_requirements rf fp v plat nb ob s
  = if path_exists (host s) (python_path_of fp v) then
      launch_run ("Installing modules from " +:+ rf +:+ "...")
        (requirements_cmd (python_path_of fp v)
           (site_packages_path_of fp v) rf plat nb ob)
        (<["CPPFLAGS" := "-I" +:+ headers_path_at s fp v]> (environ s)) s
    else absent_run (python_path_of fp v) s.
Proof.
  change (install_requirements rf fp v plat nb ob s) with
    ((headers_path ← os_path_abspath (headers_dir_of fp v);
      found ← os_path_exists (python_path_of fp v);
      if negb found
      then print Stderr ("No python at " +:+ python_path_of fp v)
      else (environ_setitem "CPPFLAGS" ("-I" +:+ headers_path);;
            print Stdout ("Installing modules from " +:+ rf +:+ "...");;
            pip_env ← os_environ;
            check_call
              (requirements_cmd (python_path_of fp v)
                 (site_packages_path_of fp v) rf plat nb ob)
              (Some pip_env))) s).
  unfold mbind at 1, M_MBind at 1, M_bind at 1, os_path_abspath.
  cbn [outcome final emitted app].
  rewrite exists_branch.
  destruct (path_exists (host s) (python_path_of fp v)); [|reflexivity].
  unfold mbind, M_MBind, M_bind, print, check_call, launch_run,
    environ_setitem, os_environ, headers_path_at.
  cbn [outcome final emitted app host environ default].
  destruct (run_child _ _ _) as [st o].
  reflexivity.
Qed.

End Running.

(** *** Truthiness *)

Lemma truthy_list_spec {A} (l : option (list A)) :
  truthy_list l = true ↔ ∃ x xs, l = Some (x :: xs).
Proof.
  destruct l as [[|x xs]|]; cbn [truthy_list]; split;
    try discriminate; eauto; intros (? & ? & ?); discriminate.
Qed.

Lemma truthy_list_false {A} (l : option (list A)) :
  truthy_list l = false ↔ l = None ∨ l = Some [].
Proof.
  destruct l as [[|x xs]|]; cbn [truthy_list]; split;
    try discriminate; eauto; intros [?|?]; discriminate.
Qed.

(** *** Strings and paths *)

Lemma string_app_assoc (a b c : string) :
  (a +:+ b) +:+ c = a +:+ (b +:+ c).
Proof.
  induction a as [|x a IH]; [reflexivity|].
  exact (f_equal (String x) IH).
Qed.

Lemma string_app_empty (a b : string) : a ≠ "" → String.eqb (a +:+ b) "" = false.
Proof. destruct a; [congruence | reflexivity]. Qed.

Lemma eqb_empty_false (a : string) : a ≠ "" → String.eqb a "" = false.
Proof. destruct a; [congruence | reflexivity]. Qed.

Lemma endswith_sep_app (a b : string) :
  b ≠ "" → posixpath.endswith_sep (a +:+ b) = posixpath.endswith_sep b.
Proof.
  intros Hb. induction a as [|x a IH]; [reflexivity|].
  change (String x a +:+ b) with (String x (a +:+ b)).
  destruct (a +:+ b) as [|y t] eqn:E.
  - destruct a; [exact (False_ind _ (Hb E)) | discriminate E].
  - exact IH.
Qed.

Lemma isabs_app (a b : string) :
  a ≠ "" → posixpath.isabs (a +:+ b) = posixpath.isabs a.
Proof.
  destruct a as [|x a]; [congruence|]. intros _.
  unfold posixpath.isabs.
  change (String x a +:+ b) with (String x (a +:+ b)).
  reflexivity.
Qed.

(** A relative component never changes whether the path is absolute. *)
Lemma isabs_join_step (path b : string) :
  posixpath.isabs b = false →
  posixpath.isabs (posixpath.join_step path b) = posixpath.isabs path.
Proof.
  intros Hb. unfold posixpath.join_step. rewrite Hb.
  destruct path as [|x path]; [exact Hb|].
  destruct (_ || _)%bool; apply isabs_app; discriminate.
Qed.

(** On a plain location [os.path.join] pastes with single separators. *)
Lemma join_template (root version leaf : string) :
  plain_location root version →
  posixpath.isabs leaf = false →
  posixpath.join root ["Versions"; version; leaf]
  = template_path root version leaf.
Proof.
  intros (Hr & Hre & Hv & Hve & Hva) Hl.
  unfold posixpath.join, template_path. cbn [fold_left].
  assert (S1 : posixpath.join_step root "Versions" = root +:+ "/Versions").
  { unfold posixpath.join_step.
    change (posixpath.isabs "Versions") with false. cbv iota.
    rewrite (eqb_empty_false _ Hr), Hre. reflexivity. }
  rewrite S1.
  assert (S2 : posixpath.join_step (root +:+ "/Versions") version
               = root +:+ "/Versions/" +:+ version).
  { unfold posixpath.join_step. rewrite Hva.
    rewrite (string_app_empty _ _ Hr), endswith_sep_app by discriminate.
    change (posixpath.endswith_sep "/Versions") with false. cbv iota.
    cbn [orb]. rewrite string_app_assoc. reflexivity. }
  rewrite S2.
  unfold posixpath.join_step. rewrite Hl.
  rewrite (string_app_empty _ _ Hr).
  rewrite <- string_app_assoc, endswith_sep_app, Hve by exact Hv.
  cbn [orb]. rewrite !string_app_assoc. reflexivity.
Qed.

Lemma isabs_join (root version leaf : string) :
  posixpath.isabs version = false →
  posixpath.isabs leaf = false →
  posixpath.isabs (posixpath.join root ["Versions"; version; leaf])
  = posixpath.isabs root.
Proof.
  intros Hv Hl. unfold posixpath.join. cbn [fold_left].
  rewrite !isabs_join_step by (assumption || reflexivity). reflexivity.
Qed.

Lemma normpath_isabs (path : string) :
  posixpath.isabs path = true →
  posixpath.isabs (posixpath.normpath path) = true.
Proof.
  intros Habs. unfold posixpath.normpath, posixpath.initial_slashes.
  rewrite Habs.
  destruct path as [|x path]; [discriminate Habs|].
  change (String.eqb (String x path) "") with false. cbv iota zeta.
  destruct (_ && _)%bool; reflexivity.
Qed.

(** [abspath] gives an absolute path whenever the working directory is
    one. *)
Lemma abspath_isabs (cwd path : string) :
  posixpath.isabs cwd = true →
  posixpath.isabs (posixpath.abspath cwd path) = true.
Proof.
  intros Hcwd. unfold posixpath.abspath. apply normpath_isabs.
  destruct (posixpath.isabs path) eqn:Hp; [exact Hp|].
  unfold posixpath.join. cbn [fold_left].
  rewrite isabs_join_step by exact Hp. exact Hcwd.
Qed.

(** *** The argument vector of a manifest install *)

Lemma multi_value_option_pairs (opt : string) (values : list string) :
  multi_value_option opt values None = flat_map (λ v, [opt; v]) values.
Proof.
  unfold multi_value_option. cbn [truthy_str].
  induction values as [|v values IH]; [reflexivity|].
  cbn [map concat flat_map app] in *. rewrite IH. reflexivity.
Qed.

Lemma multi_value_option_joined (opt sep : string) (values : list string) :
  sep ≠ "" →
  multi_value_option opt values (Some sep)
  = map (λ v, (opt +:+ sep) +:+ v) values.
Proof.
  intros Hsep. unfold multi_value_option. cbn [truthy_str default].
  rewrite (eqb_empty_false _ Hsep). cbn [negb].
  induction values as [|v values IH]; [reflexivity|].
  cbn [map concat app] in *. rewrite IH. reflexivity.
Qed.

(** The vector is the seven leading arguments, then what the platform list
    contributes, then what the binary lists contribute. *)
Lemma requirements_cmd_parts (fp v rf : string)
    (plat nb ob : option (list string)) :
  requirements_cmd (python_path_of fp v) (site_packages_path_of fp v) rf
    plat nb ob
  = requirements_base rf fp v ++ platform_part fp v plat ++ binary_flags nb ob.
Proof.
  unfold requirements_cmd, requirements_base, platform_part, binary_flags,
    platform_flags.
  rewrite !multi_value_option_pairs.
  rewrite !multi_value_option_joined by discriminate.
  change ("--no-binary" +:+ "=") with "--no-binary=".
  change ("--only-binary" +:+ "=") with "--only-binary=".
  destruct (truthy_list plat), (truthy_list nb), (truthy_list ob);
    rewrite ?app_nil_r, <- ?app_assoc; reflexivity.
Qed.

(** *** What a run shows *)

Section Observing.
Context {OS : Type} `{!Host OS}.

Lemma launch_run_launched (text : string) (cmd : list string)
    (env : gmap string string) (s : State OS) :
  launched (launch_run text cmd env s) = [cmd].
Proof. reflexivity. Qed.

Lemma launch_run_child_envs (text : string) (cmd : list string)
    (env : gmap string string) (s : State OS) :
  child_envs (launch_run text cmd env s) = [env].
Proof. reflexivity. Qed.

Lemma launch_run_exit_statuses (text : string) (cmd : list string)
    (env : gmap string string) (s : State OS) :
  exit_statuses (launch_run text cmd env s)
  = match (run_child (host s) cmd env).1 with
    | Some status => [status]
    | None => []
    end.
Proof.
  unfold exit_statuses, launch_run. cbn [emitted omap].
  destruct (run_child (host s) cmd env).1; reflexivity.
Qed.

Lemma launch_run_raised (text : string) (cmd : list string)
    (env : gmap string string) (s : State OS) :
  raised (launch_run text cmd env s)
  ↔ (run_child (host s) cmd env).1 ≠ Some 0%Z.
Proof.
  unfold raised, launch_run. cbn [outcome].
  destruct (run_child (host s) cmd env).1 as [status|].
  - destruct (Z.eqb_spec status 0) as [->|E].
    + split; [intros [e He]; discriminate He | intros Hne; contradiction].
    + split; [intros _ [= Hst]; contradiction
             | intros _; eexists; reflexivity].
  - split; [intros _; discriminate | intros _; eexists; reflexivity].
Qed.

(** A manifest install that finds its executable launches exactly one
    child, on the vector assembled from the three lists. *)
Lemma install_requirements_launched (rf fp v : string)
    (plat nb ob : option (list string)) (s : State OS) :
  path_exists (host s) (python_path_of fp v) = true →
  launched (install_requirements rf fp v plat nb ob s)
  = [requirements_base rf fp v ++ platform_part fp v plat
     ++ binary_flags nb ob].
Proof.
  intros Hex. rewrite install_requirements_run, Hex, launch_run_launched.
  rewrite requirements_cmd_parts. reflexivity.
Qed.

End Observing.

(** *** The properties of the specification *)

Section Claims.
Context {OS : Type} `{!Host OS}.

(** C1. When a no-binary list is supplied, the vector of the manifest
    install ends with one [--no-binary=<name>] flag per entry, none of
    these is an [--only-binary=] flag, and the whole run is the run with
    no only-binary list at all: the only-binary list is ignored, and
    nothing is said about it.  When only an only-binary list is supplied,
    the vector ends with one [--only-binary=<name>] flag per entry. *)
Theorem no_binary_takes_precedence (rf fp v : string)
    (plat : option (list string)) (s : State OS) :
  path_exists (host s) (python_path_of fp v) = true →
  (∀ nb ob : option (list string),
     truthy_list nb = true →
     launched (install_requirements rf fp v plat nb ob s)
     = [requirements_base rf fp v ++ platform_part fp v plat
        ++ map (λ name, "--no-binary=" +:+ name) (values_of nb)]
     ∧ Forall (λ flag, String.prefix "--only-binary=" flag = false)
         (map (λ name, "--no-binary=" +:+ name) (values_of nb))
     ∧ install_requirements rf fp v plat nb ob s
       = install_requirements rf fp v plat nb None s)
  ∧ (∀ nb ob : option (list string),
       truthy_list nb = false →
       truthy_list ob = true →
       launched (install_requirements rf fp v plat nb ob s)
       = [requirements_base rf fp v ++ platform_part fp v plat
          ++ map (λ name, "--only-binary=" +:+ name) (values_of ob)]).
Proof.
  intros Hex. split.
  - intros nb ob Hnb.
    assert (Hflags : ∀ ob', binary_flags nb ob'
              = map (λ name, "--no-binary=" +:+ name) (values_of nb)).
    { intros ob'. unfold binary_flags. rewrite Hnb. reflexivity. }
    rewrite !install_requirements_launched, !Hflags by exact Hex.
    split; [reflexivity|]. split.
    + apply Forall_forall. intros flag Hin.
      apply list_elem_of_In, in_map_iff in Hin as (name & <- & _).
      reflexivity.
    + rewrite !install_requirements_run. unfold requirements_cmd.
      rewrite Hnb. reflexivity.
  - intros nb ob Hnb Hob.
    rewrite install_requirements_launched by exact Hex.
    unfold binary_flags. rewrite Hnb, Hob. reflexivity.
Qed.

(** C2. A non-empty platform list puts, right after the seven leading
    arguments, the pairs [--platform p] in input order and then the one
    flag [--target=<install-dir>]; what follows comes from the binary
    lists and holds neither.  Without a platform list the binary flags
    follow the leading arguments directly. *)
Theorem platform_pairs_then_target (rf fp v : string)
    (nb ob : option (list string)) (s : State OS) :
  path_exists (host s) (python_path_of fp v) = true →
  (∀ plat : option (list string),
     truthy_list plat = true →
     launched (install_requirements rf fp v plat nb ob s)
     = [requirements_base rf fp v
        ++ flat_map (λ p, ["--platform"; p]) (values_of plat)
        ++ ["--target=" +:+ site_packages_path_of fp v]
        ++ binary_flags nb ob])
  ∧ (∀ plat : option (list string),
       truthy_list plat = false →
       launched (install_requirements rf fp v plat nb ob s)
       = [requirements_base rf fp v ++ binary_flags nb ob])
  ∧ Forall (λ flag, flag ≠ "--platform"
                    ∧ String.prefix "--target=" flag = false)
      (binary_flags nb ob).
Proof.
  intros Hex. repeat split.
  - intros plat Hplat.
    rewrite install_requirements_launched by exact Hex.
    unfold platform_part, platform_flags. rewrite Hplat.
    rewrite <- app_assoc. reflexivity.
  - intros plat Hplat.
    rewrite install_requirements_launched by exact Hex.
    unfold platform_part. rewrite Hplat. reflexivity.
  - apply Forall_forall. intros flag Hin. unfold binary_flags in Hin.
    destruct (truthy_list nb); [|destruct (truthy_list ob)].
    + apply list_elem_of_In, in_map_iff in Hin as (name & <- & _).
      split; [discriminate | reflexivity].
    + apply list_elem_of_In, in_map_iff in Hin as (name & <- & _).
      split; [discriminate | reflexivity].
    + apply elem_of_nil in Hin. contradiction.
Qed.

(** C7. With no platform, no-binary or only-binary entries, the manifest
    install launches exactly
    [<python> -s -m pip install -r <manifest>]. *)
Theorem bare_manifest_install (rf fp v : string)
    (plat nb ob : option (list string)) (s : State OS) :
  path_exists (host s) (python_path_of fp v) = true →
  truthy_list plat = false →
  truthy_list nb = false →
  truthy_list ob = false →
  launched (install_requirements rf fp v plat nb ob s)
  = [[python_path_of fp v; "-s"; "-m"; "pip"; "install"; "-r"; rf]].
Proof.
  intros Hex Hplat Hnb Hob.
  rewrite install_requirements_launched by exact Hex.
  unfold platform_part, binary_flags. rewrite Hplat, Hnb, Hob.
  reflexivity.
Qed.

(** C8. With the executable in place, bootstrap launches
    [<python> -s -m ensurepip], the named install
    [<python> -s -m pip install <pkgname>], and the upgrade
    [<python> -s -m pip install --upgrade pip]. *)
Theorem wire_contract (pkgname fp v : string) (s : State OS) :
  path_exists (host s) (python_path_of fp v) = true →
  launched (ensure_pip fp v s)
  = [[python_path_of fp v; "-s"; "-m"; "ensurepip"]]
  ∧ launched (install pkgname fp v s)
    = [[python_path_of fp v; "-s"; "-m"; "pip"; "install"; pkgname]]
  ∧ launched (upgrade_pip_install fp v s)
    = [[python_path_of fp v; "-s"; "-m"; "pip"; "install"; "--upgrade";
        "pip"]].
Proof.
  intros Hex.
  rewrite ensure_pip_run, install_run, upgrade_pip_install_run, Hex.
  repeat split.
Qed.

(** C10. A platform list and a no-binary list together give both groups
    of flags, every platform pair and the target flag before every
    no-binary flag. *)
Theorem platform_and_no_binary (rf fp v : string)
    (plat nb ob : option (list string)) (s : State OS) :
  path_exists (host s) (python_path_of fp v) = true →
  truthy_list plat = true →
  truthy_list nb = true →
  launched (install_requirements rf fp v plat nb ob s)
  = [requirements_base rf fp v
     ++ (flat_map (λ p, ["--platform"; p]) (values_of plat)
         ++ ["--target=" +:+ site_packages_path_of fp v])
     ++ map (λ name, "--no-binary=" +:+ name) (values_of nb)].
Proof.
  intros Hex Hplat Hnb.
  rewrite install_requirements_launched by exact Hex.
  unfold platform_part, platform_flags, binary_flags.
  rewrite Hplat, Hnb. reflexivity.
Qed.

(** C5. The one child a manifest install launches is given an environment
    in which [CPPFLAGS] is [-I] followed by the header directory of the
    same root and version made absolute, and that path is absolute. *)
Theorem cppflags_of_child (rf fp v : string)
    (plat nb ob : option (list string)) (s : State OS) :
  path_exists (host s) (python_path_of fp v) = true →
  ∃ env : gmap string string,
    child_envs (install_requirements rf fp v plat nb ob s) = [env]
    ∧ env !! "CPPFLAGS"
      = Some ("-I" +:+ posixpath.abspath (getcwd (host s))
                         (posixpath.join fp
                            ["Versions"; v; "include/python" +:+ v]))
    ∧ posixpath.isabs
        (posixpath.abspath (getcwd (host s))
           (posixpath.join fp ["Versions"; v; "include/python" +:+ v]))
      = true.
Proof.
  intros Hex. rewrite install_requirements_run, Hex, launch_run_child_envs.
  eexists. split; [reflexivity|]. split.
  - rewrite lookup_insert_eq. reflexivity.
  - apply abspath_isabs, getcwd_isabs.
Qed.

(** Each operation either finds nothing and says so, or announces itself
    and launches one child. *)
Lemma perform_run (op : operation) (s : State OS) :
  ∃ (text : string) (cmd : list string) (env : gmap string string),
    perform op s
    = if path_exists (host s)
           (python_path_of (root_of op) (version_of op))
      then launch_run text (python_path_of (root_of op) (version_of op)
                            :: cmd) env s
      else absent_run (python_path_of (root_of op) (version_of op)) s.
Proof.
  destruct op as [fp v|pkg fp v|fp v|rf fp v plat nb ob];
    cbn [perform root_of version_of].
  - rewrite ensure_pip_run. eauto.
  - rewrite install_run. eauto.
  - rewrite upgrade_pip_install_run. eauto.
  - rewrite install_requirements_run. unfold requirements_cmd.
    destruct (truthy_list plat), (truthy_list nb), (truthy_list ob);
      cbn [app]; eauto.
Qed.

(** C4.  An operation raises exactly when its executable exists and the
    child it handed to [check_call] did not exit with zero: it could not be
    started, which raises [OSError], or it exited with another status,
    which raises [CalledProcessError].  Without the executable the
    operation prints one line on the error stream, calls nothing, changes
    nothing and returns; with it, it calls [check_call] exactly once, and
    what became of that one child alone decides between returning and
    raising. *)
Theorem raises_iff_child_does_not_succeed (op : operation) (s : State OS) :
  (raised (perform op s)
   ↔ path_exists (host s) (python_path_of (root_of op) (version_of op))
     = true
     ∧ ∃ cmd env status,
         EvSpawn cmd env status ∈ emitted (perform op s)
         ∧ status ≠ Some 0%Z)
  ∧ (path_exists (host s) (python_path_of (root_of op) (version_of op))
     = false →
     outcome (perform op s) = Ok ()
     ∧ launched (perform op s) = []
     ∧ emitted (perform op s)
       = [EvPrint Stderr
            ("No python at "
             +:+ python_path_of (root_of op) (version_of op))]
     ∧ final (perform op s) = s)
  ∧ (path_exists (host s) (python_path_of (root_of op) (version_of op))
     = true →
     ∃ (text : string) (cmd : list string) (env : gmap string string)
       (status : option Z),
       emitted (perform op s) = [EvPrint Stdout text; EvSpawn cmd env status]
       ∧ outcome (perform op s)
         = match status with
           | Some returncode =>
               if Z.eqb returncode 0 then Ok ()
               else Raise (CalledProcessError returncode cmd)
           | None => Raise OSError
           end)
  ∧ (∀ returncode : Z,
       returncode ≠ 0%Z →
       exit_statuses (perform op s) = [returncode] →
       ∃ cmd : list string,
         launched (perform op s) = [cmd]
         ∧ outcome (perform op s)
           = Raise (CalledProcessError returncode cmd)).
Proof.
  destruct (perform_run op s) as (text & cmd & env & ->).
  destruct (path_exists _ _) eqn:Hex.
  - split; [|split; [discriminate|split]].
    + rewrite launch_run_raised. split.
      * intros Hne. split; [reflexivity|].
        eexists _, env, _. split; [|exact Hne].
        unfold launch_run. cbn [emitted].
        apply list_elem_of_further, list_elem_of_here.
      * intros (_ & cmd' & env' & status & Hin & Hne).
        unfold launch_run in Hin. cbn [emitted] in Hin.
        apply elem_of_cons in Hin as [Hin|Hin]; [discriminate Hin|].
        apply list_elem_of_singleton in Hin. injection Hin as _ _ <-.
        exact Hne.
    + intros _. eexists _, _, _, _. split; reflexivity.
    + intros rc Hrc. rewrite launch_run_exit_statuses, launch_run_launched.
      unfold launch_run. cbn [outcome].
      destruct (run_child (host s) _ env).1 as [status|];
        [|discriminate].
      intros [= ->]. eexists. split; [reflexivity|].
      apply Z.eqb_neq in Hrc. rewrite Hrc. reflexivity.
  - split; [|split; [|split; [discriminate|]]].
    + split.
      * intros [e He]. discriminate He.
      * intros [Habs _]. discriminate Habs.
    + intros _. repeat split.
    + intros rc _ Hst. discriminate Hst.
Qed.

(** C9.  The executable path of an operation is absolute
    exactly when the root is, for a version that does not start with a
    separator; on a plain location it is
    [<root>/Versions/<version>/bin/python<version>]; and it is the path
    every one of the four operations checks, reports when missing, and
    launches when present. *)
Theorem executable_path_per_operation (op : operation) (s : State OS) :
  (posixpath.isabs (version_of op) = false →
   posixpath.isabs (python_path_of (root_of op) (version_of op))
   = posixpath.isabs (root_of op))
  ∧ (plain_location (root_of op) (version_of op) →
     python_path_of (root_of op) (version_of op)
     = template_path (root_of op) (version_of op)
         ("bin/python" +:+ version_of op))
  ∧ (path_exists (host s) (python_path_of (root_of op) (version_of op))
     = false →
     emitted (perform op s)
     = [EvPrint Stderr
          ("No python at "
           +:+ python_path_of (root_of op) (version_of op))])
  ∧ (path_exists (host s) (python_path_of (root_of op) (version_of op))
     = true →
     ∃ args : list string,
       launched (perform op s)
       = [python_path_of (root_of op) (version_of op) :: args]).
Proof.
  split; [|split; [|split]].
  - intros Hv. apply isabs_join; [exact Hv | reflexivity].
  - intros Hplain. apply join_template; [exact Hplain | reflexivity].
  - intros Hex. destruct (perform_run op s) as (text & cmd & env & ->).
    rewrite Hex. reflexivity.
  - intros Hex. destruct (perform_run op s) as (text & cmd & env & ->).
    rewrite Hex, launch_run_launched. eauto.
Qed.

End Claims.

(** C4.  An executable that exists and cannot be run makes the operation
    raise although no child has exited with any status: raising is not
    confined to a child that exits with a status other than zero. *)
Lemma raises_without_child_exit :
  path_exists (host Sim.not_executable) (python_path_of "/R" "3.9") = true
  ∧ outcome (ensure_pip "/R" "3.9" Sim.not_executable) = Raise OSError
  ∧ exit_statuses (ensure_pip "/R" "3.9" Sim.not_executable) = []
  ∧ ¬ (raised (ensure_pip "/R" "3.9" Sim.not_executable)
       ↔ path_exists (host Sim.not_executable) (python_path_of "/R" "3.9")
         = true
         ∧ ∃ status : Z,
             exit_statuses (ensure_pip "/R" "3.9" Sim.not_executable)
             = [status]
             ∧ status ≠ 0%Z).
Proof.
  repeat (split; [reflexivity|]).
  intros [Honly _].
  destruct Honly as (_ & status & Hst & _); [eexists; reflexivity|].
  discriminate Hst.
Qed.

(** C9.  The executable path is not absolute for every root, nor always
    the root, [/Versions/], the version and the rest pasted together: a
    relative root gives a relative path, and a root that ends with a
    separator is not given a second one. *)
Lemma executable_path_not_always_absolute :
  python_path_of "./Python.framework" "3.9"
  = "./Python.framework/Versions/3.9/bin/python3.9"
  ∧ posixpath.isabs (python_path_of "./Python.framework" "3.9") = false
  ∧ python_path_of "/R/" "3.9" = "/R/Versions/3.9/bin/python3.9"
  ∧ template_path "/R/" "3.9" ("bin/python" +:+ "3.9")
    = "/R//Versions/3.9/bin/python3.9"
  ∧ ¬ (∀ root version : string,
         python_path_of root version
         = template_path root version ("bin/python" +:+ version)
         ∧ posixpath.isabs (python_path_of root version) = true).
Proof.
  repeat (split; [reflexivity|]).
  intros Hall. destruct (Hall "./Python.framework" "3.9") as [_ Habs].
  discriminate Habs.
Qed.

(** C3.  On a host where the manifest install succeeds, [CPPFLAGS] is not
    set before the operation and is set in the environment of the process
    after it has returned; the child of a later, unrelated operation
    inherits it. *)
Theorem cppflags_leaks_into_process :
  environ Sim.good !! "CPPFLAGS" = None
  ∧ outcome (install_requirements "reqs.txt" "/R" "3.9" None None None
               Sim.good) = Ok ()
  ∧ environ (final (install_requirements "reqs.txt" "/R" "3.9" None None
                      None Sim.good)) !! "CPPFLAGS"
    = Some "-I/R/Versions/3.9/include/python3.9"
  ∧ child_envs ((install_requirements "reqs.txt" "/R" "3.9" None None None;;
                 install "six" "/R" "3.9") Sim.good)
    = [{["CPPFLAGS" := "-I/R/Versions/3.9/include/python3.9"]};
       {["CPPFLAGS" := "-I/R/Versions/3.9/include/python3.9"]}].
Proof. repeat (split; [reflexivity|]). reflexivity. Qed.

(** *** The orchestration *)

Section Orchestration.
Context {OS : Type} `{!Host OS}.

Lemma bind_ext {A B} (m : M OS A) (k1 k2 : A → M OS B) (s : State OS) :
  (∀ a s', k1 a s' = k2 a s') → (m ≫= k1) s = (m ≫= k2) s.
Proof.
  intros Hk. unfold mbind, M_MBind, M_bind.
  destruct (outcome (m s)); [rewrite Hk|]; reflexivity.
Qed.

Lemma bind_ret_unit (m : M OS unit) (s : State OS) :
  (m;; mret ()) s = m s.
Proof.
  unfold mbind, M_MBind, M_bind, mret, M_MRet, M_ret.
  destruct (m s) as [[[]|e] f em]; cbn [outcome final emitted];
    rewrite ?app_nil_r; reflexivity.
Qed.

Lemma launched_bind {A B} (m : M OS A) (k : A → M OS B) (s : State OS) :
  launched ((m ≫= k) s)
  = launched (m s)
    ++ match outcome (m s) with
       | Ok a => launched (k a (final (m s)))
       | Raise _ => []
       end.
Proof.
  unfold mbind, M_MBind, M_bind, launched.
  destruct (outcome (m s)); cbn [emitted].
  - apply omap_app.
  - rewrite app_nil_r. reflexivity.
Qed.

(** The guard check ends in one of three ways: the guard path cannot be
    formatted, it does not exist, or it exists and the warning is
    printed. *)
Lemma guard_check_run (v : string) (s : State OS) :
  guard_check v s
  = match str_mod (expanduser (host s) (environ s)
                     "~/Library/Python/%s/lib/python/site-packages") v with
    | Raise e => mkRun (Raise e) s [EvPrint Stdout ""]
    | Ok guard =>
        if path_exists (host s) guard then
          mkRun (Ok ()) s
            (EvPrint Stdout "" :: emitted (guard_banner guard s))
        else mkRun (Ok ()) s [EvPrint Stdout ""]
    end.
Proof.
  unfold guard_check, mbind, M_MBind, M_bind, print, os_path_expanduser,
    percent, os_path_exists.
  cbn [outcome final emitted app].
  destruct (str_mod _ v) as [guard|e]; [|reflexivity].
  destruct (path_exists (host s) guard); reflexivity.
Qed.

Lemma guard_check_final (v : string) (s : State OS) :
  final (guard_check v s) = s.
Proof.
  rewrite guard_check_run.
  destruct (str_mod _ v) as [guard|e]; [|reflexivity].
  destruct (path_exists (host s) guard); reflexivity.
Qed.

Lemma guard_check_launched (v : string) (s : State OS) :
  launched (guard_check v s) = [].
Proof.
  rewrite guard_check_run.
  destruct (str_mod _ v) as [guard|e]; [|reflexivity].
  destruct (path_exists (host s) guard); reflexivity.
Qed.

(** The guard check prints on standard output only, and never the skip
    diagnostic. *)
Lemma guard_check_printed (v : string) (s : State OS) :
  printed Stderr (guard_check v s) = []
  ∧ occurrences skip_message (printed Stdout (guard_check v s)) = 0.
Proof.
  rewrite guard_check_run.
  destruct (str_mod _ v) as [guard|e]; [|split; reflexivity].
  destruct (path_exists (host s) guard); split; reflexivity.
Qed.

(** With the two flags off and no manifest, [install_extras] is the guard
    check, the bootstrap and the install of wheel. *)
Lemma install_extras_default (fp v : string) (rf : option string)
    (plat nb ob : option (list string)) (s : State OS) :
  truthy_str rf = false →
  install_extras fp v rf false false plat nb ob s
  = (guard_check v;; ensure_pip fp v;; install "wheel" fp v) s.
Proof.
  intros Hrf. unfold install_extras. rewrite Hrf. cbn [negb].
  apply bind_ext. intros _ s1.
  apply bind_ext. intros _ s2.
  transitivity ((install "wheel" fp v;; mret ()) s2);
    [|apply bind_ret_unit].
  apply bind_ext. intros _ s3. apply (bind_ret_unit (mret ())).
Qed.

(** What the bootstrap and the install of wheel launch between them. *)
Lemma bootstrap_then_wheel_launched (fp v : string) (s : State OS) :
  launched ((ensure_pip fp v;; install "wheel" fp v) s)
  = if path_exists (host s) (python_path_of fp v) then
      let child :=
        run_child (host s)
          [python_path_of fp v; "-s"; "-m"; "ensurepip"] (environ s) in
      [python_path_of fp v; "-s"; "-m"; "ensurepip"]
      :: (if (bool_decide (child.1 = Some 0%Z)
              && path_exists child.2 (python_path_of fp v))%bool
          then [[python_path_of fp v; "-s"; "-m"; "pip"; "install";
                 "wheel"]]
          else [])
    else [].
Proof.
  rewrite launched_bind, ensure_pip_run.
  destruct (path_exists (host s) (python_path_of fp v)) eqn:Hex.
  - rewrite launch_run_launched. unfold launch_run. cbn [outcome final].
    cbn zeta.
    destruct (run_child (host s) _ (environ s)).1 as [status|] eqn:Hst;
      [|reflexivity].
    destruct (Z.eqb_spec status 0) as [->|Hne].
    + rewrite install_run. cbn [host environ andb].
      rewrite bool_decide_eq_true_2 by reflexivity. cbn [andb].
      destruct (path_exists (run_child _ _ _).2 _); reflexivity.
    + rewrite bool_decide_eq_false_2 by congruence. reflexivity.
  - cbn [absent_run outcome final launched emitted omap app].
    rewrite install_run, Hex. reflexivity.
Qed.

Lemma install_extras_skipped (fp v : string) (rf : option string)
    (upgrade_pip : bool) (plat nb ob : option (list string))
    (s : State OS) :
  install_extras fp v rf upgrade_pip true plat nb ob s
  = match outcome (guard_check v s) with
    | Ok _ =>
        mkRun (Ok ()) s
          (emitted (guard_check v s) ++ [EvPrint Stdout skip_message])
    | Raise e => mkRun (Raise e) s (emitted (guard_check v s))
    end.
Proof.
  unfold install_extras. cbn [negb].
  unfold mbind at 1, M_MBind at 1, M_bind at 1.
  rewrite guard_check_final.
  destruct (outcome (guard_check v s)); reflexivity.
Qed.

Lemma occurrences_app (line : string) (l1 l2 : list string) :
  occurrences line (l1 ++ l2) = occurrences line l1 + occurrences line l2.
Proof. unfold occurrences. rewrite filter_app, length_app. reflexivity. Qed.

(** C6. With [without_pip] and [upgrade_pip] off and no manifest,
    [install_extras] is the guard check followed by the bootstrap and the
    install of wheel; the children it launches are always a leading part
    of the bootstrap vector followed by the wheel vector, and they are
    exactly these two when the guard check passes, the executable exists,
    the bootstrap child exits with zero and leaves the executable in
    place.  With [without_pip] on, [install_extras] is the guard check
    followed by the skip diagnostic: nothing is launched, and when the
    guard check passes the diagnostic is printed exactly once, as the last
    thing the run does. *)
Theorem install_extras_orchestration (fp v : string) (rf : option string)
    (upgrade_pip : bool) (plat nb ob : option (list string))
    (s : State OS) :
  (truthy_str rf = false →
   install_extras fp v rf false false plat nb ob s
   = (guard_check v;; ensure_pip fp v;; install "wheel" fp v) s
   ∧ launched (install_extras fp v rf false false plat nb ob s)
     `prefix_of` [[python_path_of fp v; "-s"; "-m"; "ensurepip"];
                  [python_path_of fp v; "-s"; "-m"; "pip"; "install";
                   "wheel"]]
   ∧ (outcome (guard_check v s) = Ok () →
      path_exists (host s) (python_path_of fp v) = true →
      (run_child (host s) [python_path_of fp v; "-s"; "-m"; "ensurepip"]
         (environ s)).1 = Some 0%Z →
      path_exists
        (run_child (host s) [python_path_of fp v; "-s"; "-m"; "ensurepip"]
           (environ s)).2 (python_path_of fp v) = true →
      launched (install_extras fp v rf false false plat nb ob s)
      = [[python_path_of fp v; "-s"; "-m"; "ensurepip"];
         [python_path_of fp v; "-s"; "-m"; "pip"; "install"; "wheel"]]))
  ∧ install_extras fp v rf upgrade_pip true plat nb ob s
    = (guard_check v;; print Stdout skip_message) s
  ∧ launched (install_extras fp v rf upgrade_pip true plat nb ob s) = []
  ∧ (outcome (guard_check v s) = Ok () →
     outcome (install_extras fp v rf upgrade_pip true plat nb ob s) = Ok ()
     ∧ occurrences skip_message
         (printed Stdout
            (install_extras fp v rf upgrade_pip true plat nb ob s)) = 1
     ∧ last (emitted (install_extras fp v rf upgrade_pip true plat nb ob s))
       = Some (EvPrint Stdout skip_message)).
Proof.
  split; [|split; [reflexivity|split]].
  - intros Hrf. rewrite install_extras_default by exact Hrf.
    split; [reflexivity|].
    rewrite launched_bind, guard_check_launched, guard_check_final.
    cbn [app].
    destruct (outcome (guard_check v s)) as [[]|e].
    + rewrite bootstrap_then_wheel_launched. split.
      * destruct (path_exists (host s) (python_path_of fp v));
          [|apply prefix_nil].
        cbn zeta. destruct (_ && _)%bool.
        -- reflexivity.
        -- exists [[python_path_of fp v; "-s"; "-m"; "pip"; "install";
                    "wheel"]]. reflexivity.
      * intros _ Hex Hzero Hstill. rewrite Hex. cbn zeta.
        rewrite Hzero, Hstill. reflexivity.
    + split; [apply prefix_nil | intros Hok; discriminate Hok].
  - rewrite install_extras_skipped.
    pose proof (guard_check_launched v s) as Hnone. unfold launched in *.
    destruct (outcome (guard_check v s)); cbn [emitted];
      rewrite ?omap_app, Hnone; reflexivity.
  - intros Hok. rewrite install_extras_skipped, Hok.
    split; [reflexivity|]. split.
    + unfold printed. cbn [emitted]. rewrite omap_app.
      rewrite occurrences_app.
      destruct (guard_check_printed v s) as [_ Hzero].
      unfold printed in Hzero. rewrite Hzero. reflexivity.
    + cbn [emitted]. apply last_snoc.
Qed.

(** A manifest install that finds its executable leaves [CPPFLAGS] set in
    the environment of the process itself. *)
Lemma install_requirements_environ (rf fp v : string)
    (plat nb ob : option (list string)) (s : State OS) :
  path_exists (host s) (python_path_of fp v) = true →
  environ (final (install_requirements rf fp v plat nb ob s))
  = <["CPPFLAGS" := "-I" +:+ headers_path_at s fp v]> (environ s).
Proof.
  intros Hex. rewrite install_requirements_run, Hex. reflexivity.
Qed.

End Orchestration.

(** *** The properties on the concrete host *)

Lemma no_binary_takes_precedence_witness :
  path_exists (host Sim.good) (python_path_of "/R" "3.9") = true
  ∧ launched (install_requirements "reqs.txt" "/R" "3.9" None
                (Some ["a"; "b"]) (Some ["c"]) Sim.good)
    = [["/R/Versions/3.9/bin/python3.9"; "-s"; "-m"; "pip"; "install"; "-r";
        "reqs.txt"; "--no-binary=a"; "--no-binary=b"]]
  ∧ launched (install_requirements "reqs.txt" "/R" "3.9" None None
                (Some ["c"]) Sim.good)
    = [["/R/Versions/3.9/bin/python3.9"; "-s"; "-m"; "pip"; "install"; "-r";
        "reqs.txt"; "--only-binary=c"]].
Proof.
  split; [reflexivity|].
  destruct (no_binary_takes_precedence "reqs.txt" "/R" "3.9" None Sim.good)
    as [Hnb Hob]; [reflexivity|].
  split.
  - destruct (Hnb (Some ["a"; "b"]) (Some ["c"])) as [Hcmd _];
      [reflexivity | exact Hcmd].
  - apply (Hob None (Some ["c"])); reflexivity.
Defined.

Lemma platform_pairs_then_target_witness :
  path_exists (host Sim.good) (python_path_of "/R" "3.9") = true
  ∧ launched (install_requirements "reqs.txt" "/R" "3.9"
                (Some ["macosx_10_9_x86_64"; "macosx_11_0_arm64"]) None None
                Sim.good)
    = [["/R/Versions/3.9/bin/python3.9"; "-s"; "-m"; "pip"; "install"; "-r";
        "reqs.txt"; "--platform"; "macosx_10_9_x86_64"; "--platform";
        "macosx_11_0_arm64";
        "--target=/R/Versions/3.9/lib/python3.9/site-packages"]]
  ∧ launched (install_requirements "reqs.txt" "/R" "3.9" (Some []) None None
                Sim.good)
    = [["/R/Versions/3.9/bin/python3.9"; "-s"; "-m"; "pip"; "install"; "-r";
        "reqs.txt"]].
Proof.
  split; [reflexivity|].
  destruct (platform_pairs_then_target "reqs.txt" "/R" "3.9" None None
              Sim.good) as (Hsome & Hnone & _); [reflexivity|].
  split.
  - apply (Hsome (Some ["macosx_10_9_x86_64"; "macosx_11_0_arm64"])).
    reflexivity.
  - apply (Hnone (Some [])). reflexivity.
Defined.

Lemma raises_iff_child_does_not_succeed_witness :
  raised (perform (Install "wheel" "/R" "3.9") Sim.failing)
  ∧ raised (perform (Install "wheel" "/R" "3.9") Sim.not_executable)
  ∧ outcome (perform (Install "wheel" "/R" "3.9") Sim.bare) = Ok ()
  ∧ launched (perform (Install "wheel" "/R" "3.9") Sim.bare) = []
  ∧ ∃ cmd : list string,
      outcome (perform (Install "wheel" "/R" "3.9") Sim.failing)
      = Raise (CalledProcessError 1 cmd).
Proof.
  split; [|split; [|split; [|split]]].
  - apply (proj2 (proj1 (raises_iff_child_does_not_succeed
                           (Install "wheel" "/R" "3.9") Sim.failing))).
    split; [reflexivity|]. eexists _, _, (Some 1%Z).
    split; [apply list_elem_of_further, list_elem_of_here | discriminate].
  - apply (proj2 (proj1 (raises_iff_child_does_not_succeed
                           (Install "wheel" "/R" "3.9")
                           Sim.not_executable))).
    split; [reflexivity|]. eexists _, _, None.
    split; [apply list_elem_of_further, list_elem_of_here | discriminate].
  - destruct (proj1 (proj2 (raises_iff_child_does_not_succeed
                              (Install "wheel" "/R" "3.9") Sim.bare)))
      as (Hok & _); [reflexivity | exact Hok].
  - destruct (proj1 (proj2 (raises_iff_child_does_not_succeed
                              (Install "wheel" "/R" "3.9") Sim.bare)))
      as (_ & Hnone & _); [reflexivity | exact Hnone].
  - destruct (proj2 (proj2 (proj2 (raises_iff_child_does_not_succeed
                                     (Install "wheel" "/R" "3.9")
                                     Sim.failing))) 1%Z)
      as (cmd & _ & Hout); [lia | reflexivity |].
    exists cmd. exact Hout.
Defined.

Lemma cppflags_of_child_witness :
  path_exists (host Sim.good) (python_path_of "/R" "3.9") = true
  ∧ ∃ env : gmap string string,
      child_envs (install_requirements "reqs.txt" "/R" "3.9" None None None
                    Sim.good) = [env]
      ∧ env !! "CPPFLAGS" = Some "-I/R/Versions/3.9/include/python3.9".
Proof.
  split; [reflexivity|].
  destruct (cppflags_of_child "reqs.txt" "/R" "3.9" None None None Sim.good)
    as (env & Henvs & Hflag & _); [reflexivity|].
  exists env. split; [exact Henvs | exact Hflag].
Defined.

Lemma install_extras_orchestration_witness :
  launched (install_extras "/R" "3.9" None false false None None None
              Sim.good)
  = [["/R/Versions/3.9/bin/python3.9"; "-s"; "-m"; "ensurepip"];
     ["/R/Versions/3.9/bin/python3.9"; "-s"; "-m"; "pip"; "install";
      "wheel"]]
  ∧ occurrences skip_message
      (printed Stdout
         (install_extras "/R" "3.9" None false true None None None Sim.good))
    = 1.
Proof.
  destruct (install_extras_orchestration "/R" "3.9" None false None None None
              Sim.good) as (Hdefault & _ & _ & Hskip).
  split.
  - destruct Hdefault as (_ & _ & Hboth); [reflexivity|].
    apply Hboth; reflexivity.
  - destruct Hskip as (_ & Hone & _); [reflexivity | exact Hone].
Defined.

Lemma bare_manifest_install_witness :
  path_exists (host Sim.good) (python_path_of "/R" "3.9") = true
  ∧ launched (install_requirements "reqs.txt" "/R" "3.9" None (Some []) None
                Sim.good)
    = [["/R/Versions/3.9/bin/python3.9"; "-s"; "-m"; "pip"; "install"; "-r";
        "reqs.txt"]].
Proof.
  split; [reflexivity|].
  apply (bare_manifest_install "reqs.txt" "/R" "3.9" None (Some []) None
           Sim.good); reflexivity.
Defined.

Lemma wire_contract_witness :
  path_exists (host Sim.good) (python_path_of "/R" "3.9") = true
  ∧ launched (ensure_pip "/R" "3.9" Sim.good)
    = [["/R/Versions/3.9/bin/python3.9"; "-s"; "-m"; "ensurepip"]]
  ∧ launched (install "wheel" "/R" "3.9" Sim.good)
    = [["/R/Versions/3.9/bin/python3.9"; "-s"; "-m"; "pip"; "install";
        "wheel"]]
  ∧ launched (upgrade_pip_install "/R" "3.9" Sim.good)
    = [["/R/Versions/3.9/bin/python3.9"; "-s"; "-m"; "pip"; "install";
        "--upgrade"; "pip"]].
Proof.
  split; [reflexivity|].
  apply (wire_contract "wheel" "/R" "3.9" Sim.good). reflexivity.
Defined.

Lemma executable_path_per_operation_witness :
  plain_location "/R" "3.9"
  ∧ python_path_of "/R" "3.9" = "/R/Versions/3.9/bin/python3.9"
  ∧ posixpath.isabs (python_path_of "/R" "3.9") = true
  ∧ ∃ args : list string,
      launched (perform (UpgradePipInstall "/R" "3.9") Sim.good)
      = ["/R/Versions/3.9/bin/python3.9" :: args].
Proof.
  assert (Hplain : plain_location "/R" "3.9").
  { repeat split; discriminate. }
  destruct (executable_path_per_operation (UpgradePipInstall "/R" "3.9")
              Sim.good) as (Habs & Htemplate & _ & Hfound).
  split; [exact Hplain|]. split; [exact (Htemplate Hplain)|].
  split; [apply Habs | apply Hfound]; reflexivity.
Defined.

Lemma platform_and_no_binary_witness :
  path_exists (host Sim.good) (python_path_of "/R" "3.9") = true
  ∧ launched (install_requirements "reqs.txt" "/R" "3.9"
                (Some ["macosx_11_0_arm64"]) (Some ["numpy"]) None Sim.good)
    = [["/R/Versions/3.9/bin/python3.9"; "-s"; "-m"; "pip"; "install"; "-r";
        "reqs.txt"; "--platform"; "macosx_11_0_arm64";
        "--target=/R/Versions/3.9/lib/python3.9/site-packages";
        "--no-binary=numpy"]].
Proof.
  split; [reflexivity|].
  apply (platform_and_no_binary "reqs.txt" "/R" "3.9"
           (Some ["macosx_11_0_arm64"]) (Some ["numpy"]) None Sim.good);
    reflexivity.
Defined.

(** *** Composing runs *)

Section Composing.
Context {OS : Type} `{!Host OS}.

Lemma bind_ret_l {A B} (a : A) (k : A → M OS B) (s : State OS) :
  (mret a ≫= k) s = k a s.
Proof.
  unfold mbind, M_MBind, M_bind, mret, M_MRet, M_ret.
  cbn [outcome final emitted app]. apply run_eta.
Qed.


Lemma child_envs_bind {A B} (m : M OS A) (k : A → M OS B) (s : State OS) :
  child_envs ((m ≫= k) s)
  = child_envs (m s)
    ++ match outcome (m s) with
       | Ok a => child_envs (k a (final (m s)))
       | Raise _ => []
       end.
Proof.
  unfold mbind, M_MBind, M_bind, child_envs.
  destruct (outcome (m s)); cbn [emitted].
  - apply omap_app.
  - rewrite app_nil_r. reflexivity.
Qed.

Lemma outcome_bind {A B} (m : M OS A) (k : A → M OS B) (s : State OS) :
  outcome ((m ≫= k) s)
  = match outcome (m s) with
    | Ok a => outcome (k a (final (m s)))
    | Raise e => Raise e
    end.
Proof.
  unfold mbind, M_MBind, M_bind. destruct (outcome (m s)); reflexivity.
Qed.

Lemma final_bind {A B} (m : M OS A) (k : A → M OS B) (s : State OS) :
  final ((m ≫= k) s)
  = match outcome (m s) with
    | Ok a => final (k a (final (m s)))
    | Raise _ => final (m s)
    end.
Proof.
  unfold mbind, M_MBind, M_bind. destruct (outcome (m s)); reflexivity.
Qed.


Lemma agree_off_cppflags_trans (e1 e2 e3 : gmap string string) :
  agree_off_cppflags e1 e2 → agree_off_cppflags e2 e3 →
  agree_off_cppflags e1 e3.
Proof. intros H12 H23 key Hkey. rewrite H12, H23 by exact Hkey. reflexivity. Qed.

(** Framed runs compose. *)
Lemma env_framed_bind {A B} (m : M OS A) (k : A → M OS B) (s : State OS) :
  env_framed s (m s) →
  (∀ a, env_framed (final (m s)) (k a (final (m s)))) →
  env_framed s ((m ≫= k) s).
Proof.
  intros [Hfin Hch] Hk. unfold env_framed.
  rewrite final_bind, child_envs_bind.
  destruct (outcome (m s)) as [a|e].
  - destruct (Hk a) as [Hfin' Hch']. split.
    + eapply agree_off_cppflags_trans; eassumption.
    + apply Forall_app; split; [exact Hch|].
      eapply Forall_impl; [exact Hch'|]. intros env Henv. cbv beta in Henv.
      exact (agree_off_cppflags_trans _ _ _ Henv Hfin).
  - rewrite app_nil_r. split; assumption.
Qed.

(** Runs that leave the environment alone compose. *)
Lemma env_untouched_bind {A B} (m : M OS A) (k : A → M OS B)
    (s : State OS) :
  env_untouched s (m s) →
  (∀ a, env_untouched (final (m s)) (k a (final (m s)))) →
  env_untouched s ((m ≫= k) s).
Proof.
  intros [Hfin Hch] Hk. unfold env_untouched.
  rewrite final_bind, child_envs_bind.
  destruct (outcome (m s)) as [a|e].
  - destruct (Hk a) as [Hfin' Hch']. rewrite Hfin in Hfin', Hch'. split.
    + exact Hfin'.
    + apply Forall_app; split; assumption.
  - rewrite app_nil_r. split; assumption.
Qed.

(** Every operation is the missing-executable run or the launch of its
    vector, decided by the existence check alone. *)
Lemma perform_launch (op : operation) (s : State OS) :
  perform op s
  = if path_exists (host s) (python_path_of (root_of op) (version_of op))
    then launch_run (announcement op) (argv op) (child_env_of op s) s
    else absent_run (python_path_of (root_of op) (version_of op)) s.
Proof.
  destruct op as [fp v|pkg fp v|fp v|rf fp v plat nb ob];
    cbn [perform root_of version_of announcement argv child_env_of].
  - apply ensure_pip_run.
  - apply install_run.
  - apply upgrade_pip_install_run.
  - apply install_requirements_run.
Qed.


Lemma perform_env_framed (op : operation) (s : State OS) :
  env_framed s (perform op s).
Proof.
  assert (Hop : agree_off_cppflags (child_env_of op s) (environ s)).
  { intros key Hkey. destruct op; cbn [child_env_of]; try reflexivity.
    apply lookup_insert_ne. congruence. }
  rewrite perform_launch. destruct (path_exists _ _).
  - split; [exact Hop|]. repeat constructor. exact Hop.
  - split; [intros key _; reflexivity | constructor].
Qed.


Lemma print_env_untouched (out : stream) (text : string) (s : State OS) :
  env_untouched s (print out text s).
Proof. split; [reflexivity | constructor]. Qed.


Lemma ret_env_untouched {A} (a : A) (s : State OS) :
  env_untouched s ((mret a : M OS A) s).
Proof. split; [reflexivity | constructor]. Qed.

Lemma env_untouched_framed {A} (s : State OS) (r : Run OS A) :
  env_untouched s r → env_framed s r.
Proof.
  intros [Hfin Hch]. split.
  - rewrite Hfin. intros key _. reflexivity.
  - eapply Forall_impl; [exact Hch|]. intros env -> key _. reflexivity.
Qed.


Lemma guard_check_env_untouched (v : string) (s : State OS) :
  env_untouched s (guard_check v s).
Proof.
  unfold env_untouched. rewrite guard_check_final. split; [reflexivity|].
  rewrite guard_check_run.
  destruct (str_mod _ v) as [guard|e];
    [destruct (path_exists (host s) guard)|]; cbn; constructor.
Qed.

End Composing.

(** *** A whole installation, step by step *)

Section Planning.
Context {OS : Type} `{!Host OS}.

(** With [without_pip] off, [install_extras] is the guard check followed
    by its steps. *)
Lemma install_extras_steps (fp v : string) (rf : option string)
    (upgrade_pip : bool) (plat nb ob : option (list string))
    (s : State OS) :
  install_extras fp v rf upgrade_pip false plat nb ob s
  = (guard_check v;; run_steps (steps fp v rf upgrade_pip plat nb ob)) s.
Proof.
  unfold install_extras, steps. cbn [negb].
  apply bind_ext. intros [] s1.
  destruct upgrade_pip, (truthy_str rf); cbn [app run_steps perform];
    repeat first
      [ reflexivity
      | rewrite bind_ret_l
      | rewrite bind_ret_unit
      | apply bind_ext; intros [] ? ].
Qed.

Lemma plan_steps (fp v : string) (rf : option string) (upgrade_pip : bool)
    (plat nb ob : option (list string)) :
  plan fp v rf upgrade_pip false plat nb ob
  = map (λ step, argv step.2) (steps fp v rf upgrade_pip plat nb ob).
Proof.
  unfold plan, steps.
  destruct upgrade_pip, (truthy_str rf); cbn [map app argv snd];
    rewrite <- ?requirements_cmd_parts; reflexivity.
Qed.

Lemma steps_uniform (fp v : string) (rf : option string) (upgrade_pip : bool)
    (plat nb ob : option (list string)) :
  Forall (λ step, root_of step.2 = fp ∧ version_of step.2 = v)
    (steps fp v rf upgrade_pip plat nb ob).
Proof.
  unfold steps. destruct upgrade_pip, (truthy_str rf); repeat constructor.
Qed.

Lemma steps_length (fp v : string) (rf : option string) (upgrade_pip : bool)
    (plat nb ob : option (list string)) :
  length (steps fp v rf upgrade_pip plat nb ob)
  = 2 + (if upgrade_pip then 1 else 0) + (if truthy_str rf then 1 else 0).
Proof. unfold steps. destruct upgrade_pip, (truthy_str rf); reflexivity. Qed.

(** One step, then the rest. *)
Lemma run_steps_cons (blank : bool) (op : operation)
    (l : list (bool * operation)) (s : State OS) :
  run_steps ((blank, op) :: l) s
  = (let r := perform op s in
     let r' := run_steps l (final r) in
     let line := if blank then [EvPrint Stdout ""] else [] in
     match outcome r with
     | Ok _ => mkRun (outcome r') (final r') (line ++ emitted r ++ emitted r')
     | Raise e => mkRun (Raise e) (final r) (line ++ emitted r)
     end).
Proof.
  cbn [run_steps]. unfold mbind, M_MBind, M_bind.
  destruct blank; cbn [print mret M_MRet M_ret outcome final emitted app];
    destruct (outcome (perform op s)); reflexivity.
Qed.

(** Without the executable every step reports it missing and goes on. *)
Lemma run_steps_missing (fp v : string) (l : list (bool * operation))
    (s : State OS) :
  Forall (λ step, root_of step.2 = fp ∧ version_of step.2 = v) l →
  path_exists (host s) (python_path_of fp v) = false →
  run_steps l s
  = mkRun (Ok ()) s
      (flat_map (λ step : bool * operation,
                   (if step.1 then [EvPrint Stdout ""] else [])
                   ++ [EvPrint Stderr (missing_message fp v)]) l).
Proof.
  intros Hl Hex. induction Hl as [|[blank op] l [Hfp Hv] Hl IH];
    [reflexivity|].
  cbn [fst snd] in *. rewrite run_steps_cons, perform_launch, Hfp, Hv, Hex.
  cbn [absent_run outcome final emitted]. cbv zeta. rewrite IH.
  cbn [outcome final emitted flat_map fst snd]. rewrite <- app_assoc.
  reflexivity.
Qed.

(** The children of a run of steps are a leading part of their vectors. *)
Lemma run_steps_prefix (fp v : string) (l : list (bool * operation))
    (s : State OS) :
  Forall (λ step, root_of step.2 = fp ∧ version_of step.2 = v) l →
  launched (run_steps l s) `prefix_of` map (λ step, argv step.2) l.
Proof.
  intros Hl. revert s.
  induction Hl as [|[blank op] l [Hfp Hv] Hl IH]; intros s;
    [apply prefix_nil|].
  cbn [fst snd] in *.
  destruct (path_exists (host s) (python_path_of fp v)) eqn:Hex.
  - rewrite run_steps_cons, perform_launch, Hfp, Hv, Hex.
    unfold launch_run. cbn [outcome final emitted]. cbv zeta.
    destruct (match (run_child (host s) (argv op) (child_env_of op s)).1 with
              | Some returncode =>
                  if Z.eqb returncode 0 then Ok ()
                  else Raise (CalledProcessError returncode (argv op))
              | None => Raise OSError
              end).
    + unfold launched. cbn [emitted]. rewrite !omap_app.
      destruct blank; cbn [omap app map snd]; apply prefix_cons, IH.
    + unfold launched. cbn [emitted]. rewrite !omap_app.
      destruct blank; cbn [omap app map snd]; apply prefix_cons, prefix_nil.
  - rewrite (run_steps_missing fp v) by (try constructor; auto).
    unfold launched. cbn [emitted].
    replace (omap _ _) with (@nil (list string)); [apply prefix_nil|].
    clear. induction (_ :: l) as [|[b o] l' IH']; [reflexivity|].
    cbn [flat_map]. rewrite omap_app, <- IH'. destruct b; reflexivity.
Qed.

Lemma launched_missing_events (fp v : string) (l : list (bool * operation)) :
  omap (λ e, match e with EvSpawn cmd _ _ => Some cmd | _ => None end)
    (flat_map (λ step : bool * operation,
                 (if step.1 then [EvPrint Stdout ""] else [])
                 ++ [EvPrint Stderr (missing_message fp v)]) l)
  = [].
Proof.
  induction l as [|[b o] l IH]; [reflexivity|].
  cbn [flat_map]. rewrite omap_app, IH. destruct b; reflexivity.
Qed.

Lemma stderr_missing_events (fp v : string) (l : list (bool * operation)) :
  omap (λ e, match e with
             | EvPrint o text =>
                 if bool_decide (o = Stderr) then Some text else None
             | _ => None
             end)
    (flat_map (λ step : bool * operation,
                 (if step.1 then [EvPrint Stdout ""] else [])
                 ++ [EvPrint Stderr (missing_message fp v)]) l)
  = replicate (length l) (missing_message fp v).
Proof.
  induction l as [|[b o] l IH]; [reflexivity|].
  cbn [flat_map]. rewrite omap_app, IH. destruct b; reflexivity.
Qed.

(** On a host where the executable stays in place and every child exits
    with zero, every step launches its child. *)
Lemma run_steps_exact (stable : OS → Prop) (fp v : string)
    (l : list (bool * operation)) (s : State OS) :
  (∀ o, stable o → path_exists o (python_path_of fp v) = true) →
  (∀ o cmd env, stable o →
     (run_child o cmd env).1 = Some 0%Z ∧ stable (run_child o cmd env).2) →
  Forall (λ step, root_of step.2 = fp ∧ version_of step.2 = v) l →
  stable (host s) →
  launched (run_steps l s) = map (λ step, argv step.2) l
  ∧ outcome (run_steps l s) = Ok ().
Proof.
  intros Hthere Hchild Hl. revert s.
  induction Hl as [|[blank op] l [Hfp Hv] Hl IH]; intros s Hs;
    [split; reflexivity|].
  cbn [fst snd] in *.
  rewrite run_steps_cons, perform_launch, Hfp, Hv, (Hthere _ Hs).
  destruct (Hchild (host s) (argv op) (child_env_of op s) Hs) as [Hzero Hnext].
  unfold launch_run. cbn [outcome final emitted]. cbv zeta. rewrite Hzero.
  cbn [Z.eqb].
  destruct (IH (mkState (run_child (host s) (argv op) (child_env_of op s)).2
                  (child_env_of op s)) Hnext) as [IHl IHo].
  split; [|exact IHo].
  unfold launched in *. cbn [emitted]. rewrite !omap_app, IHl.
  destruct blank; reflexivity.
Qed.


Lemma run_steps_env_framed (l : list (bool * operation)) (s : State OS) :
  env_framed s (run_steps l s).
Proof.
  revert s. induction l as [|[blank op] l IH]; intros s.
  - apply env_untouched_framed, ret_env_untouched.
  - cbn [run_steps]. apply env_framed_bind.
    + apply env_untouched_framed.
      destruct blank; [apply print_env_untouched | apply ret_env_untouched].
    + intros _. apply env_framed_bind;
        [apply perform_env_framed | intros _; apply IH].
Qed.

Lemma run_steps_env_untouched (l : list (bool * operation)) (s : State OS) :
  Forall (λ step : bool * operation,
            ∀ s', child_env_of step.2 s' = environ s') l →
  env_untouched s (run_steps l s).
Proof.
  intros Hl. revert s. induction Hl as [|[blank op] l Hop Hl IH]; intros s;
    [apply ret_env_untouched|].
  cbn [run_steps snd] in *. apply env_untouched_bind.
  - destruct blank; [apply print_env_untouched | apply ret_env_untouched].
  - intros _. apply env_untouched_bind; [|intros _; apply IH].
    rewrite perform_launch. destruct (path_exists _ _).
    + split; [apply Hop|]. repeat constructor. apply Hop.
    + split; [reflexivity | constructor].
Qed.

(** X1.  Whatever the flags and whatever the host does, the children
    [install_extras] launches are a leading part of its plan: bootstrap,
    wheel, the upgrade if asked for, the manifest install if a manifest is
    given, in this order, and none at all with [without_pip]. *)
Theorem install_extras_follows_plan (fp v : string) (rf : option string)
    (upgrade_pip without_pip : bool) (plat nb ob : option (list string))
    (s : State OS) :
  launched (install_extras fp v rf upgrade_pip without_pip plat nb ob s)
  `prefix_of` plan fp v rf upgrade_pip without_pip plat nb ob.
Proof.
  destruct without_pip.
  - rewrite install_extras_skipped.
    pose proof (guard_check_launched v s) as Hnone. unfold launched in *.
    destruct (outcome (guard_check v s)); cbn [emitted];
      rewrite ?omap_app, Hnone; apply prefix_nil.
  - rewrite install_extras_steps, launched_bind, guard_check_launched,
      guard_check_final, plan_steps.
    cbn [app]. destruct (outcome (guard_check v s)); [|apply prefix_nil].
    apply (run_steps_prefix fp v), steps_uniform.
Qed.

(** X2.  On a host where the executable stays in place and every child
    exits with zero, and with a guard path that can be formatted,
    [install_extras] launches exactly its plan and returns normally. *)
Theorem install_extras_completes_plan (stable : OS → Prop) (fp v : string)
    (rf : option string) (upgrade_pip without_pip : bool)
    (plat nb ob : option (list string)) (s : State OS) :
  (∀ o, stable o → path_exists o (python_path_of fp v) = true) →
  (∀ o cmd env, stable o →
     (run_child o cmd env).1 = Some 0%Z ∧ stable (run_child o cmd env).2) →
  stable (host s) →
  outcome (guard_check v s) = Ok () →
  launched (install_extras fp v rf upgrade_pip without_pip plat nb ob s)
  = plan fp v rf upgrade_pip without_pip plat nb ob
  ∧ outcome (install_extras fp v rf upgrade_pip without_pip plat nb ob s)
    = Ok ().
Proof.
  intros Hthere Hchild Hs Hguard. destruct without_pip.
  - rewrite install_extras_skipped, Hguard. split; [|reflexivity].
    unfold launched. cbn [emitted]. rewrite omap_app.
    pose proof (guard_check_launched v s) as Hnone. unfold launched in Hnone.
    rewrite Hnone. reflexivity.
  - rewrite install_extras_steps, launched_bind, outcome_bind,
      guard_check_launched, guard_check_final, Hguard, plan_steps.
    cbn [app].
    apply (run_steps_exact stable fp v); auto using steps_uniform.
Qed.


(** X4.  [install_extras] touches no variable of the process environment
    other than [CPPFLAGS], and every child it launches is given the
    environment of the caller except perhaps at [CPPFLAGS]. *)
Theorem install_extras_environment_frame (fp v : string)
    (rf : option string) (upgrade_pip without_pip : bool)
    (plat nb ob : option (list string)) (s : State OS) :
  (∀ key : string, key ≠ "CPPFLAGS" →
     environ
       (final (install_extras fp v rf upgrade_pip without_pip plat nb ob s))
     !! key = environ s !! key)
  ∧ Forall (λ env : gmap string string,
              ∀ key : string, key ≠ "CPPFLAGS" →
                env !! key = environ s !! key)
      (child_envs
         (install_extras fp v rf upgrade_pip without_pip plat nb ob s)).
Proof.
  change (env_framed s
            (install_extras fp v rf upgrade_pip without_pip plat nb ob s)).
  destruct without_pip.
  - change (install_extras fp v rf upgrade_pip true plat nb ob s)
      with ((guard_check v;; print Stdout skip_message) s).
    apply env_framed_bind.
    + apply env_untouched_framed, guard_check_env_untouched.
    + intros _. apply env_untouched_framed, print_env_untouched.
  - rewrite install_extras_steps. apply env_framed_bind.
    + apply env_untouched_framed, guard_check_env_untouched.
    + intros _. apply run_steps_env_framed.
Qed.

(** X5.  Without a manifest, or with [without_pip], [install_extras]
    leaves the environment of the process exactly as it was and gives
    every child exactly that environment. *)
Theorem install_extras_environment_untouched (fp v : string)
    (rf : option string) (upgrade_pip without_pip : bool)
    (plat nb ob : option (list string)) (s : State OS) :
  truthy_str rf = false ∨ without_pip = true →
  environ
    (final (install_extras fp v rf upgrade_pip without_pip plat nb ob s))
  = environ s
  ∧ Forall (λ env, env = environ s)
      (child_envs
         (install_extras fp v rf upgrade_pip without_pip plat nb ob s)).
Proof.
  intros Hcase.
  change (env_untouched s
            (install_extras fp v rf upgrade_pip without_pip plat nb ob s)).
  destruct without_pip.
  - change (install_extras fp v rf upgrade_pip true plat nb ob s)
      with ((guard_check v;; print Stdout skip_message) s).
    apply env_untouched_bind; [apply guard_check_env_untouched|].
    intros _. apply print_env_untouched.
  - destruct Hcase as [Hrf|Hwp]; [|discriminate Hwp].
    rewrite install_extras_steps.
    apply env_untouched_bind; [apply guard_check_env_untouched|].
    intros _. apply run_steps_env_untouched.
    unfold steps. rewrite Hrf.
    destruct upgrade_pip; repeat constructor.
Qed.

(** X6.  When the executable is missing, [install_extras] launches nothing
    and changes nothing; if the guard path can be formatted it returns
    normally all the same, having reported the missing executable on the
    error stream once for every operation it went through. *)
Theorem install_extras_without_executable (fp v : string)
    (rf : option string) (upgrade_pip : bool)
    (plat nb ob : option (list string)) (s : State OS) :
  path_exists (host s) (python_path_of fp v) = false →
  launched (install_extras fp v rf upgrade_pip false plat nb ob s) = []
  ∧ final (install_extras fp v rf upgrade_pip false plat nb ob s) = s
  ∧ (outcome (guard_check v s) = Ok () →
     outcome (install_extras fp v rf upgrade_pip false plat nb ob s) = Ok ()
     ∧ printed Stderr (install_extras fp v rf upgrade_pip false plat nb ob s)
       = replicate
           (2 + (if upgrade_pip then 1 else 0)
            + (if truthy_str rf then 1 else 0))
           ("No python at " +:+ python_path_of fp v)).
Proof.
  intros Hex.
  pose proof (run_steps_missing fp v (steps fp v rf upgrade_pip plat nb ob) s
                (steps_uniform _ _ _ _ _ _ _) Hex) as Hrun.
  rewrite install_extras_steps, launched_bind, final_bind, outcome_bind.
  rewrite guard_check_launched, guard_check_final, Hrun.
  split; [|split].
  - destruct (outcome (guard_check v s)); [|reflexivity].
    unfold launched. cbn [emitted app]. apply launched_missing_events.
  - destruct (outcome (guard_check v s)); reflexivity.
  - intros Hguard. rewrite Hguard. split; [reflexivity|].
    unfold printed, mbind, M_MBind, M_bind. rewrite Hguard, guard_check_final.
    rewrite Hrun. cbn [emitted]. rewrite omap_app.
    destruct (guard_check_printed v s) as [Hnone _].
    unfold printed in Hnone. rewrite Hnone.
    cbn [app]. rewrite stderr_missing_events, steps_length. reflexivity.
Qed.

End Planning.

(** *** The option helper *)

(** X7.  Without a separator, and just as well with an empty one,
    [multi_value_option] gives two arguments per value: the option at every
    even position and the values, in order, at the odd ones. *)
Theorem multi_value_option_pair_layout (opt : string)
    (values : list string) (separator : option string) :
  truthy_str separator = false →
  length (multi_value_option opt values separator) = 2 * length values
  ∧ ∀ (i : nat) (value : string),
      values !! i = Some value →
      multi_value_option opt values separator !! (2 * i) = Some opt
      ∧ multi_value_option opt values separator !! (2 * i + 1) = Some value.
Proof.
  intros Hsep. unfold multi_value_option. rewrite Hsep. clear Hsep. split.
  - induction values as [|v values IH]; [reflexivity|].
    cbn [map concat app length]. rewrite IH. lia.
  - induction values as [|v values IH]; intros i value Hi;
      [discriminate Hi|].
    destruct i as [|i].
    + injection Hi as ->. split; reflexivity.
    + cbn [map concat app].
      replace (2 * S i) with (S (S (2 * i))) by lia.
      replace (S (S (2 * i)) + 1) with (S (S (2 * i + 1))) by lia.
      exact (IH i value Hi).
Qed.

(** X8.  With a separator, [multi_value_option] gives one argument per
    value, the option, the separator and the value pasted together, in
    order; different lists of values never give the same arguments. *)
Theorem multi_value_option_joined_layout (opt sep : string)
    (values : list string) :
  sep ≠ "" →
  length (multi_value_option opt values (Some sep)) = length values
  ∧ (∀ i : nat,
       multi_value_option opt values (Some sep) !! i
       = (λ value, opt +:+ sep +:+ value) <$> values !! i)
  ∧ (∀ values' : list string,
       multi_value_option opt values (Some sep)
       = multi_value_option opt values' (Some sep) →
       values = values').
Proof.
  intros Hsep. rewrite multi_value_option_joined by exact Hsep.
  split; [apply length_map|]. split.
  - intros i. rewrite list_lookup_fmap.
    destruct (values !! i) as [value|]; [|reflexivity].
    cbn [fmap option_fmap option_map]. rewrite string_app_assoc. reflexivity.
  - intros values'. rewrite multi_value_option_joined by exact Hsep.
    revert values'.
    induction values as [|v values IH]; intros [|v' values'] Heq;
      try discriminate Heq; [reflexivity|].
    cbn [map] in Heq. injection Heq as Hhead Htail.
    apply String.app_inj in Hhead. subst v'.
    rewrite (IH values' Htail). reflexivity.
Qed.

(** *** The three paths of a runtime location *)

Lemma string_app_nil_r (a : string) : a +:+ "" = a.
Proof.
  induction a as [|x a IH]; [reflexivity|].
  exact (f_equal (String x) IH).
Qed.

(** Joining a relative leaf is pasting it after the directory form of the
    path, which is what joining the empty string gives. *)
Lemma join_step_leaf (path leaf : string) :
  posixpath.isabs leaf = false →
  posixpath.join_step path leaf = posixpath.join_step path "" +:+ leaf.
Proof.
  intros Hleaf. unfold posixpath.join_step. rewrite Hleaf.
  change (posixpath.isabs "") with false. cbv iota.
  destruct (_ || _)%bool.
  - rewrite string_app_nil_r. reflexivity.
  - rewrite <- string_app_assoc. reflexivity.
Qed.

Lemma join_leaf (root version leaf : string) :
  posixpath.isabs leaf = false →
  posixpath.join root ["Versions"; version; leaf]
  = posixpath.join root ["Versions"; version; ""] +:+ leaf.
Proof.
  intros Hleaf. unfold posixpath.join. cbn [fold_left].
  apply join_step_leaf, Hleaf.
Qed.

(** The three joins of [install_requirements] are the version directory
    [os.path.join(root, "Versions", version, "")] followed by their
    leaves. *)
Lemma joined_paths_directory (fp v : string) :
  python_path_of fp v
  = posixpath.join fp ["Versions"; v; ""] +:+ "bin/python" +:+ v
  ∧ headers_dir_of fp v
    = posixpath.join fp ["Versions"; v; ""] +:+ "include/python" +:+ v
  ∧ site_packages_path_of fp v
    = posixpath.join fp ["Versions"; v; ""] +:+ "lib/python" +:+ v
      +:+ "/site-packages".
Proof.
  unfold python_path_of, headers_dir_of, site_packages_path_of.
  rewrite (join_leaf fp v ("bin/python" +:+ v)) by reflexivity.
  rewrite (join_leaf fp v ("include/python" +:+ v)) by reflexivity.
  rewrite (join_leaf fp v (("lib/python" +:+ v) +:+ "/site-packages"))
    by reflexivity.
  rewrite (string_app_assoc "lib/python"). repeat split.
Qed.

(** X10.  A version that starts with a separator makes [os.path.join]
    drop the root: the three paths are then the same for every root. *)
Theorem absolute_version_drops_root (fp fp' v : string) :
  posixpath.isabs v = true →
  python_path_of fp v = posixpath.join v ["bin/python" +:+ v]
  ∧ python_path_of fp v = python_path_of fp' v
  ∧ headers_dir_of fp v = headers_dir_of fp' v
  ∧ site_packages_path_of fp v = site_packages_path_of fp' v.
Proof.
  intros Hv.
  assert (Hdrop : ∀ root leaf,
            posixpath.join root ["Versions"; v; leaf]
            = posixpath.join v [leaf]).
  { intros root leaf. unfold posixpath.join. cbn [fold_left].
    f_equal. unfold posixpath.join_step at 1. rewrite Hv. reflexivity. }
  unfold python_path_of, headers_dir_of, site_packages_path_of.
  rewrite !Hdrop. repeat split.
Qed.

Section HeaderPath.
Context {OS : Type} `{!Host OS}.

(** X11.  For an absolute root the working directory plays no part in
    [CPPFLAGS]: the child of a manifest install is given the environment
    of the process with [CPPFLAGS] replaced by [-I] and the normalised
    header directory. *)
Theorem cppflags_ignores_cwd (rf fp v : string)
    (plat nb ob : option (list string)) (s : State OS) :
  posixpath.isabs fp = true →
  path_exists (host s) (python_path_of fp v) = true →
  child_envs (install_requirements rf fp v plat nb ob s)
  = [<["CPPFLAGS" := "-I" +:+ posixpath.normpath (headers_dir_of fp v)]>
       (environ s)].
Proof.
  intros Hfp Hex.
  rewrite install_requirements_run, Hex, launch_run_child_envs.
  unfold headers_path_at, posixpath.abspath.
  assert (Habs : posixpath.isabs (headers_dir_of fp v) = true).
  { unfold headers_dir_of. destruct (posixpath.isabs v) eqn:Hv.
    - unfold posixpath.join. cbn [fold_left].
      rewrite isabs_join_step by reflexivity.
      unfold posixpath.join_step at 1. rewrite Hv. exact Hv.
    - rewrite isabs_join by (exact Hv || reflexivity). exact Hfp. }
  rewrite Habs. reflexivity.
Qed.

(** X9.  In a manifest install with a platform list, the interpreter that
    is run, the directory of the target flag and the header directory of
    [CPPFLAGS] hang off one and the same version directory
    [os.path.join(root, "Versions", version, "")]: the first argument is
    that directory and [bin/python<version>], the target flag, right after
    the platform pairs, is that directory and
    [lib/python<version>/site-packages], and [CPPFLAGS] is [-I] and
    [abspath] of that directory and [include/python<version>]. *)
Theorem manifest_paths_share_directory (rf fp v : string)
    (plat nb ob : option (list string)) (s : State OS) :
  path_exists (host s) (python_path_of fp v) = true →
  truthy_list plat = true →
  ∃ (cmd : list string) (env : gmap string string),
    launched (install_requirements rf fp v plat nb ob s) = [cmd]
    ∧ child_envs (install_requirements rf fp v plat nb ob s) = [env]
    ∧ cmd !! 0
      = Some (posixpath.join fp ["Versions"; v; ""] +:+ "bin/python" +:+ v)
    ∧ cmd !! (7 + 2 * length (values_of plat))
      = Some ("--target=" +:+ posixpath.join fp ["Versions"; v; ""]
              +:+ "lib/python" +:+ v +:+ "/site-packages")
    ∧ env !! "CPPFLAGS"
      = Some ("-I" +:+ posixpath.abspath (getcwd (host s))
                         (posixpath.join fp ["Versions"; v; ""]
                          +:+ "include/python" +:+ v)).
Proof.
  intros Hex Hplat.
  destruct (joined_paths_directory fp v) as (Hpy & Hhdr & Hsite).
  eexists _, _. split; [apply install_requirements_launched, Hex|].
  split; [rewrite install_requirements_run, Hex; apply launch_run_child_envs|].
  split; [|split].
  - unfold requirements_base. cbn [app lookup list_lookup]. rewrite Hpy.
    reflexivity.
  - unfold platform_part, platform_flags. rewrite Hplat, Hsite.
    rewrite <- (app_assoc _ [_]), app_assoc.
    apply list_lookup_middle. rewrite length_app.
    assert (Hpairs : ∀ l : list string,
              length (flat_map (λ p, ["--platform"; p]) l) = 2 * length l).
    { induction l as [|p l IH]; [reflexivity|].
      cbn [flat_map app length]. rewrite IH. lia. }
    rewrite Hpairs. reflexivity.
  - rewrite lookup_insert_eq. unfold headers_path_at. rewrite Hhdr.
    reflexivity.
Qed.

(** X12.  Whatever the three lists hold, the vector of a manifest install
    starts with the same seven arguments, the manifest last among them,
    and has two arguments and a target flag for a non-empty platform list
    and one argument for each entry of the binary list that is used. *)
Theorem manifest_vector_shape (rf fp v : string)
    (plat nb ob : option (list string)) (s : State OS) :
  path_exists (host s) (python_path_of fp v) = true →
  ∃ cmd : list string,
    launched (install_requirements rf fp v plat nb ob s) = [cmd]
    ∧ take 7 cmd
      = [python_path_of fp v; "-s"; "-m"; "pip"; "install"; "-r"; rf]
    ∧ length cmd
      = 7 + (if truthy_list plat then 2 * length (values_of plat) + 1 else 0)
        + (if truthy_list nb then length (values_of nb)
           else if truthy_list ob then length (values_of ob) else 0).
Proof.
  intros Hex. eexists. split; [apply install_requirements_launched, Hex|].
  split; [reflexivity|].
  rewrite !length_app.
  unfold requirements_base, platform_part, binary_flags, platform_flags.
  assert (Hpairs : ∀ l : list string,
            length (flat_map (λ p, ["--platform"; p]) l) = 2 * length l).
  { induction l as [|p l IH]; [reflexivity|].
    cbn [flat_map app length]. rewrite IH. lia. }
  destruct (truthy_list plat), (truthy_list nb), (truthy_list ob);
    rewrite ?length_app, ?Hpairs, ?length_map; cbn [length]; lia.
Qed.

End HeaderPath.

(** *** The further properties on the concrete host *)

Lemma install_extras_completes_plan_witness :
  launched (install_extras "/R" "3.9" (Some "reqs.txt") true false
              (Some ["macosx_11_0_arm64"]) None (Some ["six"]) Sim.good)
  = [["/R/Versions/3.9/bin/python3.9"; "-s"; "-m"; "ensurepip"];
     ["/R/Versions/3.9/bin/python3.9"; "-s"; "-m"; "pip"; "install";
      "wheel"];
     ["/R/Versions/3.9/bin/python3.9"; "-s"; "-m"; "pip"; "install";
      "--upgrade"; "pip"];
     ["/R/Versions/3.9/bin/python3.9"; "-s"; "-m"; "pip"; "install"; "-r";
      "reqs.txt"; "--platform"; "macosx_11_0_arm64";
      "--target=/R/Versions/3.9/lib/python3.9/site-packages";
      "--only-binary=six"]]
  ∧ outcome (install_extras "/R" "3.9" (Some "reqs.txt") true false
               (Some ["macosx_11_0_arm64"]) None (Some ["six"]) Sim.good)
    = Ok ().
Proof.
  apply (install_extras_completes_plan (λ o, o = host Sim.good) "/R" "3.9"
           (Some "reqs.txt") true false (Some ["macosx_11_0_arm64"]) None
           (Some ["six"]) Sim.good).
  - intros o ->. reflexivity.
  - intros o cmd env ->. split; reflexivity.
  - reflexivity.
  - reflexivity.
Defined.


Lemma install_extras_environment_frame_witness :
  environ (final (install_extras "/R" "3.9" (Some "reqs.txt") false false
                    None None None Sim.good)) !! "HOME"
  = environ Sim.good !! "HOME".
Proof.
  apply (proj1 (install_extras_environment_frame "/R" "3.9"
                  (Some "reqs.txt") false false None None None Sim.good)).
  discriminate.
Defined.

Lemma install_extras_environment_untouched_witness :
  environ (final (install_extras "/R" "3.9" None true false None None None
                    Sim.good))
  = environ Sim.good.
Proof.
  apply (proj1 (install_extras_environment_untouched "/R" "3.9" None true
                  false None None None Sim.good (or_introl eq_refl))).
Defined.

Lemma install_extras_without_executable_witness :
  path_exists (host Sim.bare) (python_path_of "/R" "3.9") = false
  ∧ printed Stderr (install_extras "/R" "3.9" (Some "reqs.txt") true false
                      None None None Sim.bare)
    = ["No python at /R/Versions/3.9/bin/python3.9";
       "No python at /R/Versions/3.9/bin/python3.9";
       "No python at /R/Versions/3.9/bin/python3.9";
       "No python at /R/Versions/3.9/bin/python3.9"].
Proof.
  split; [reflexivity|].
  destruct (install_extras_without_executable "/R" "3.9" (Some "reqs.txt")
              true None None None Sim.bare) as (_ & _ & Hreport);
    [reflexivity|].
  destruct Hreport as [_ Hlines]; [reflexivity | exact Hlines].
Defined.

Lemma multi_value_option_pair_layout_witness :
  multi_value_option "--platform" ["macosx_10_9_x86_64"; "macosx_11_0_arm64"]
    (Some "") !! 3
  = Some "macosx_11_0_arm64".
Proof.
  destruct (multi_value_option_pair_layout "--platform"
              ["macosx_10_9_x86_64"; "macosx_11_0_arm64"] (Some ""))
    as [_ Hat]; [reflexivity|].
  destruct (Hat 1 "macosx_11_0_arm64") as [_ Hodd];
    [reflexivity | exact Hodd].
Defined.

Lemma multi_value_option_joined_layout_witness :
  multi_value_option "--no-binary" ["numpy"; "six"] (Some "=") !! 1
  = Some "--no-binary=six".
Proof.
  destruct (multi_value_option_joined_layout "--no-binary" "="
              ["numpy"; "six"]) as (_ & Hat & _); [discriminate|].
  exact (Hat 1).
Defined.

Lemma manifest_paths_share_directory_witness :
  ∃ (cmd : list string) (env : gmap string string),
    launched (install_requirements "reqs.txt" "./Python.framework" "3.9"
                (Some ["macosx_11_0_arm64"]) None None
                (mkState (Sim.mk_os
                            ["./Python.framework/Versions/3.9/bin/python3.9"]
                            "/Users/dev" 0) ∅)) = [cmd]
    ∧ cmd !! 0 = Some "./Python.framework/Versions/3.9/bin/python3.9"
    ∧ cmd !! 9
      = Some "--target=./Python.framework/Versions/3.9/lib/python3.9/site-packages"
    ∧ env !! "CPPFLAGS"
      = Some "-I/build/Python.framework/Versions/3.9/include/python3.9".
Proof.
  destruct (manifest_paths_share_directory "reqs.txt" "./Python.framework"
              "3.9" (Some ["macosx_11_0_arm64"]) None None
              (mkState (Sim.mk_os
                          ["./Python.framework/Versions/3.9/bin/python3.9"]
                          "/Users/dev" 0) ∅))
    as (cmd & env & Hcmd & _ & Hfirst & Htarget & Hflags);
    [reflexivity | reflexivity |].
  exists cmd, env. repeat split; assumption.
Defined.

Lemma absolute_version_drops_root_witness :
  posixpath.isabs "/3.9" = true
  ∧ python_path_of "/R" "/3.9" = "/3.9/bin/python/3.9".
Proof.
  split; [reflexivity|].
  destruct (absolute_version_drops_root "/R" "/S" "/3.9") as [Hpath _];
    [reflexivity | exact Hpath].
Defined.

Lemma cppflags_ignores_cwd_witness :
  child_envs (install_requirements "reqs.txt" "/R/../R" "3.9" None None None
                (mkState (Sim.mk_os ["/R/../R/Versions/3.9/bin/python3.9"]
                            "/Users/dev" 0) ∅))
  = [{["CPPFLAGS" := "-I/R/Versions/3.9/include/python3.9"]}].
Proof.
  apply (cppflags_ignores_cwd "reqs.txt" "/R/../R" "3.9" None None None
           (mkState (Sim.mk_os ["/R/../R/Versions/3.9/bin/python3.9"]
                       "/Users/dev" 0) ∅)); reflexivity.
Defined.

Lemma manifest_vector_shape_witness :
  ∃ cmd : list string,
    launched (install_requirements "reqs.txt" "/R" "3.9"
                (Some ["macosx_11_0_arm64"]) (Some ["numpy"; "six"]) None
                Sim.good) = [cmd]
    ∧ length cmd = 12.
Proof.
  destruct (manifest_vector_shape "reqs.txt" "/R" "3.9"
              (Some ["macosx_11_0_arm64"]) (Some ["numpy"; "six"]) None
              Sim.good) as (cmd & Hcmd & _ & Hlen); [reflexivity|].
  exists cmd. split; [exact Hcmd | exact Hlen].
Defined.

(** *** After a manifest install *)

Section Aftermath.
Context {OS : Type} `{!Host OS}.

(** X13.  Once a manifest install has launched its child and returned,
    [CPPFLAGS] stays in the environment of the process: any bootstrap,
    named install or upgrade run next, for whatever framework, hands it on
    to its own child, and it is still set when that operation is over. *)
Theorem cppflags_outlives_manifest_install (rf fp v : string)
    (plat nb ob : option (list string)) (next : operation) (s : State OS) :
  match next with
  | InstallRequirements _ _ _ _ _ _ => False
  | _ => True
  end →
  path_exists (host s) (python_path_of fp v) = true →
  outcome (install_requirements rf fp v plat nb ob s) = Ok () →
  Forall (λ env : gmap string string,
            env !! "CPPFLAGS"
            = Some ("-I" +:+ posixpath.abspath (getcwd (host s))
                               (headers_dir_of fp v)))
    (child_envs ((install_requirements rf fp v plat nb ob;; perform next) s))
  ∧ environ
      (final ((install_requirements rf fp v plat nb ob;; perform next) s))
    !! "CPPFLAGS"
    = Some ("-I" +:+ posixpath.abspath (getcwd (host s))
                       (headers_dir_of fp v)).
Proof.
  intros Hnext Hex Hok.
  rewrite child_envs_bind, final_bind, Hok.
  assert (Henv : environ (final (install_requirements rf fp v plat nb ob s))
                 !! "CPPFLAGS"
                 = Some ("-I" +:+ posixpath.abspath (getcwd (host s))
                                    (headers_dir_of fp v))).
  { rewrite install_requirements_environ by exact Hex.
    apply lookup_insert_eq. }
  assert (Hsame : ∀ s', child_env_of next s' = environ s').
  { intros s'. destruct next; [reflexivity..|destruct Hnext]. }
  rewrite (perform_launch next), Hsame.
  rewrite install_requirements_run, Hex in *.
  rewrite launch_run_child_envs.
  destruct (path_exists _ (python_path_of (root_of next) (version_of next))).
  - rewrite launch_run_child_envs. split; [|exact Henv].
    repeat constructor; [apply lookup_insert_eq | exact Henv].
  - split; [|exact Henv]. repeat constructor. apply lookup_insert_eq.
Qed.

End Aftermath.

Lemma cppflags_outlives_manifest_install_witness :
  Forall (λ env : gmap string string,
            env !! "CPPFLAGS" = Some "-I/R/Versions/3.9/include/python3.9")
    (child_envs ((install_requirements "reqs.txt" "/R" "3.9" None None None;;
                  perform (Install "six" "/R" "3.9")) Sim.good)).
Proof.
  destruct (cppflags_outlives_manifest_install "reqs.txt" "/R" "3.9"
              None None None (Install "six" "/R" "3.9") Sim.good)
    as [Hchildren _]; [exact I | reflexivity | reflexivity | exact Hchildren].
Defined.
